(** * easygo: the AWS helper package [pkg/egaws]

    A shallow embedding of [pkg/egaws/eqaws.go]: the bootstrap sequence
    [NewEGAwsClient] and the secrets accessor [GetLatestJsonSecretValue],
    together with the small part of the surface of the libraries they call
    (the AWS SDK for Go v2, [encoding/json], [fmt], [eris]).

    The libraries are collaborators.  What they answer is not decided by this
    package, so their operations are fields of a record of functions
    ([Collaborators], [json.Decoder]) over which every theorem quantifies.
    Every call the package makes to a collaborator and every line it logs is
    recorded, in program order, in a trace.

    A run of [NewEGAwsClient] either returns or panics: it panics on a nil
    argument pointer, on a nil [Logger] at the first line that logs, and when
    the credential provider it installs reads an exchange reply that lacks a
    field.  The request log of [pkg/logging/generic.go] (package
    [httpserver]) follows, with the level of the [logrus] logger deciding
    which records are written. *)

From Stdlib Require Import String Ascii List ZArith Bool Lia.
From Stdlib Require Import Strings.Byte.
From Stdlib Require Import Decimal DecimalString DecimalZ DecimalPos.
Import ListNotations.

Local Open Scope string_scope.
Local Open Scope Z_scope.
Local Open Scope list_scope.

Set Implicit Arguments.

(** ** Go values *)

(** A [[]byte] that is not nil. *)
Definition bytes := list byte.

(** [[]byte(s)]: the bytes of a Go string. *)
Definition bytes_of_string (s : string) : bytes := list_byte_of_string s.

(** [context.Context]; the package only hands it on to its collaborators. *)
Inductive Context : Type :=
| context_Background
| context_Derived (id : nat).

(** [time.Time], as an instant on a line. *)
Definition Time := Z.

(** Go error values.  The package builds errors in three ways; any other
    error is made by a collaborator and is opaque here. *)
Inductive error : Type :=
| Foreign (text : string)
    (* an error value returned by a collaborator *)
| fmt_Errorf_w (description : string) (cause : error)
    (* fmt.Errorf(description + ": %w", cause) *)
| eris_Wrap (cause : error) (msg : string)
    (* eris.Wrap(cause, msg), cause not nil *)
| eris_New (msg : string).
    (* eris.New(msg) *)

(** [errors.Unwrap]. *)
Definition Unwrap (e : error) : option error :=
  match e with
  | fmt_Errorf_w _ cause => Some cause
  | eris_Wrap cause _ => Some cause
  | Foreign _ | eris_New _ => None
  end.

(** [e.Error()], the text of an error. *)
Fixpoint Error (e : error) : string :=
  match e with
  | Foreign text => text
  | fmt_Errorf_w description cause => (description ++ ": " ++ Error cause)%string
  | eris_Wrap cause msg => (msg ++ ": " ++ Error cause)%string
  | eris_New msg => msg
  end.

(** A collaborator's [(T, error)] reply: the value when the error is nil,
    the error otherwise (the package never reads the value next to a non-nil
    error). *)
Inductive reply (T : Type) : Type :=
| Ok (v : T)
| Err (err : error).
Arguments Ok {T} v.
Arguments Err {T} err.

(** How a call of a Go function ends: it returns, or it panics. *)
Inductive outcome (T : Type) : Type :=
| Returned (v : T)
| Panicked (reason : string).
Arguments Returned {T} v.
Arguments Panicked {T} reason.

Definition nil_dereference : string :=
  "invalid memory address or nil pointer dereference".

(** ** The surface of the AWS SDK that the package uses *)

(** [*http.Client]: a handle; [None] is the nil pointer. *)
Definition http_Client := nat.

(** [aws.RetryMode] is a string type. *)
Definition aws_RetryMode := string.

(** [aws.String(v)]: a pointer to [v]. *)
Definition aws_String (v : string) : option string := Some v.

Module config.

(** The functional options of [config.LoadDefaultConfig], by the
    constructor that made them. *)
Inductive LoadOption : Type :=
| WithRegion (v : string)
| WithRetryMaxAttempts (v : Z)
| WithRetryMode (v : aws_RetryMode)
| WithHTTPClient (v : http_Client).

(** [config.LoadOptions], restricted to the fields these options set.
    The zero value of a field means that the option was not given. *)
Record LoadOptions : Type := {
  Region : string;
  RetryMaxAttempts : Z;
  RetryMode : aws_RetryMode;
  HTTPClient : option http_Client
}.

Definition zero : LoadOptions :=
  {| Region := ""; RetryMaxAttempts := 0; RetryMode := ""; HTTPClient := None |}.

(** Each option is a setter of one field. *)
Definition apply (o : LoadOptions) (opt : LoadOption) : LoadOptions :=
  match opt with
  | WithRegion v =>
      {| Region := v; RetryMaxAttempts := RetryMaxAttempts o;
         RetryMode := RetryMode o; HTTPClient := HTTPClient o |}
  | WithRetryMaxAttempts v =>
      {| Region := Region o; RetryMaxAttempts := v;
         RetryMode := RetryMode o; HTTPClient := HTTPClient o |}
  | WithRetryMode v =>
      {| Region := Region o; RetryMaxAttempts := RetryMaxAttempts o;
         RetryMode := v; HTTPClient := HTTPClient o |}
  | WithHTTPClient v =>
      {| Region := Region o; RetryMaxAttempts := RetryMaxAttempts o;
         RetryMode := RetryMode o; HTTPClient := Some v |}
  end.

(** What a list of option functions asks for: they are applied in order,
    starting from the zero value. *)
Definition requested (optFns : list LoadOption) : LoadOptions :=
  fold_left apply optFns zero.

Definition is_WithRetryMaxAttempts (opt : LoadOption) : bool :=
  match opt with WithRetryMaxAttempts _ => true | _ => false end.

End config.

(** [service/sts/types]. *)
Module types.

(** [types.Credentials]: every field is a pointer, [None] is nil. *)
Record Credentials : Type := {
  AccessKeyId : option string;
  SecretAccessKey : option string;
  SessionToken : option string;
  Expiration : option Time
}.

End types.

Module sts.

Record AssumeRoleInput : Type := { RoleArn : option string }.

(** [sts.AssumeRoleOutput], restricted to the field the package reads,
    which is a pointer to a [types.Credentials]. *)
Record AssumeRoleOutput : Type := { Credentials : option types.Credentials }.

Record GetCallerIdentityOutput : Type := {
  Account : option string;
  Arn : option string;
  UserId : option string
}.

End sts.

Module secretsmanager.

Record GetSecretValueInput : Type := { SecretId : option string }.

(** [secretsmanager.GetSecretValueOutput], restricted to the two payload
    fields: [SecretString] is a [*string], [SecretBinary] a [[]byte]; [None]
    is nil for both. *)
Record GetSecretValueOutput : Type := {
  SecretString : option string;
  SecretBinary : option bytes
}.

End secretsmanager.

(** ** The trace: calls to collaborators and log lines, in program order *)

Inductive attr : Type :=
| attr_int (v : Z)
| attr_string (v : string)
| attr_identity (v : sts.GetCallerIdentityOutput).

Inductive Event : Type :=
| EvDebug (msg : string) (fields : list (string * attr))
| EvLoadDefaultConfig (ctx : Context) (optFns : list config.LoadOption)
| EvStsNewFromConfig
| EvAssumeRole (ctx : Context) (params : sts.AssumeRoleInput)
| EvGetCallerIdentity (ctx : Context)
| EvSecretsNewFromConfig
| EvGetSecretValue (ctx : Context) (params : secretsmanager.GetSecretValueInput).

(** A computation returns a value and the events it produced. *)
Definition M (A : Type) : Type := (A * list Event)%type.

Definition ret {A} (a : A) : M A := (a, []).

Definition bind {A B} (m : M A) (k : A -> M B) : M B :=
  let (a, t1) := m in
  let (b, t2) := k a in
  (b, t1 ++ t2).

Definition emit (e : Event) : M unit := (tt, [e]).

Declare Scope go_scope.
Delimit Scope go_scope with go.
Notation "x <- m ;; k" := (bind m (fun x => k))
  (at level 61, m at next level, right associativity) : go_scope.
Notation "m ;; k" := (bind m (fun _ => k))
  (at level 61, right associativity) : go_scope.
Local Open Scope go_scope.

Definition value {A} (m : M A) : A := fst m.
Definition trace {A} (m : M A) : list Event := snd m.

(** A computation that may panic: it returns a value or panics, and either
    way leaves the events it produced until then. *)
Definition P (A : Type) : Type := M (outcome A).

Definition pret {A} (a : A) : P A := ret (Returned a).

Definition panic {A} (reason : string) : P A := ret (Panicked reason).

Definition lift {A} (m : M A) : P A := (Returned (fst m), snd m).

Definition pbind {A B} (m : P A) (k : A -> P B) : P B :=
  match m with
  | (Returned a, t1) => let (b, t2) := k a in (b, t1 ++ t2)
  | (Panicked reason, t1) => (Panicked reason, t1)
  end.

Declare Scope panic_scope.
Delimit Scope panic_scope with panic.
Notation "x <- m ;; k" := (pbind m (fun x => k))
  (at level 61, m at next level, right associativity) : panic_scope.
Notation "m ;; k" := (pbind m (fun _ => k))
  (at level 61, right associativity) : panic_scope.

Definition is_AssumeRole (e : Event) : bool :=
  match e with EvAssumeRole _ _ => true | _ => false end.

(** How many role-assumption exchanges a trace holds. *)
Definition exchanges (t : list Event) : nat :=
  List.length (filter is_AssumeRole t).

Module aws.

(** [aws.Credentials]. *)
Record Credentials : Type := {
  AccessKeyID : string;
  SecretAccessKey : string;
  SessionToken : string;
  Source : string;
  CanExpire : bool;
  Expires : Time;
  AccountID : string
}.

Definition zero : Credentials :=
  {| AccessKeyID := ""; SecretAccessKey := ""; SessionToken := "";
     Source := ""; CanExpire := false; Expires := 0; AccountID := "" |}.

(** [aws.CredentialsProviderFunc]: a Go function
    [func(context.Context) (aws.Credentials, error)]. *)
Definition CredentialsProviderFunc : Type :=
  Context -> M (outcome (Credentials * option error)).

(** Modelled from the spec: [aws.NewCredentialsCache] and the cache it
    returns belong to the provider SDK, which is not under src/.  The spec
    (4.2, step 3) says that each credential request returns the cached
    set unless its expiration has passed; a request that finds no usable
    cached set asks the wrapped provider and keeps what it returns. *)
Record CredentialsCache : Type := {
  provider : CredentialsProviderFunc;
  cached : option Credentials
}.

Definition NewCredentialsCache (p : CredentialsProviderFunc) : CredentialsCache :=
  {| provider := p; cached := None |}.

Definition expired (c : Credentials) (now : Time) : bool := Expires c <=? now.

Definition refresh (c : CredentialsCache) (ctx : Context)
  : M (outcome (Credentials * option error) * CredentialsCache) :=
  r <- provider c ctx ;;
  match r with
  | Returned (creds, None) =>
      ret (Returned (creds, None), {| provider := provider c; cached := Some creds |})
  | Returned (creds, Some err) => ret (Returned (zero, Some err), c)
  | Panicked reason => ret (Panicked reason, c)
  end.

Definition Retrieve (c : CredentialsCache) (ctx : Context) (now : Time)
  : M (outcome (Credentials * option error) * CredentialsCache) :=
  match cached c with
  | Some creds =>
      if expired creds now then refresh c ctx
      else ret (Returned (creds, None), c)
  | None => refresh c ctx
  end.

(** [aws.CredentialsProvider]: what [Config.Credentials] holds.  In Go a
    cache is held through a pointer and shared by every copy of the
    configuration; here a configuration holds the cache as it was made, and
    the cache after some requests is the one [Retrieve] hands back. *)
Inductive CredentialsProvider : Type :=
| Resolved (source : nat)
    (* whatever LoadDefaultConfig resolved from the ambient chain *)
| Cached (c : CredentialsCache).
    (* a *CredentialsCache *)

(** [aws.Config], restricted to what the options above and the package
    touch. *)
Record Config : Type := {
  Region : string;
  Credentials_ : CredentialsProvider;
  RetryMaxAttempts : Z;
  RetryMode : aws_RetryMode;
  HTTPClient : option http_Client
}.

(** [cfg.Credentials = p]. *)
Definition set_Credentials (cfg : Config) (p : CredentialsProvider) : Config :=
  {| Region := Region cfg; Credentials_ := p;
     RetryMaxAttempts := RetryMaxAttempts cfg; RetryMode := RetryMode cfg;
     HTTPClient := HTTPClient cfg |}.

End aws.

(** [*sts.Client] and [*secretsmanager.Client]: a client is bound to the
    configuration it was built from. *)
Record sts_Client : Type := { sts_options : aws.Config }.
Record secretsmanager_Client : Type := { secretsmanager_options : aws.Config }.

(** What the collaborators reply.  Nothing is assumed about the replies.  A
    call is taken to return: a panic raised inside a library is not a reply,
    and only the panics of the package's own code are modelled: a nil
    pointer or interface it reads through, and its credential provider
    ([NewEGAwsClient_func1]), also when the SDK runs it. *)
Record Collaborators : Type := {
  on_LoadDefaultConfig :
    Context -> list config.LoadOption -> reply aws.Config;
  on_AssumeRole :
    sts_Client -> Context -> sts.AssumeRoleInput -> reply sts.AssumeRoleOutput;
  on_GetCallerIdentity :
    sts_Client -> Context -> reply sts.GetCallerIdentityOutput;
  on_GetSecretValue :
    secretsmanager_Client -> Context -> secretsmanager.GetSecretValueInput ->
    reply secretsmanager.GetSecretValueOutput;
  (* the instant the SDK reads from its clock when it needs credentials *)
  time_Now : Time
}.

(** [logging.Logger], an alias of the interface [logrus.FieldLogger]; what
    implements it is the caller's business.  [None] is the nil interface. *)
Inductive logging_Logger : Type :=
| FieldLogger (id : nat).

(** The calls, as the package makes them: each leaves its event. *)

(** [logger.Debug(msg, fields...)]; a method call on the nil interface
    panics. *)
Definition Logger_Debug (logger : option logging_Logger) (msg : string)
    (fields : list (string * attr)) : P unit :=
  match logger with
  | None => panic nil_dereference
  | Some _ => lift (emit (EvDebug msg fields))
  end.

Definition config_LoadDefaultConfig (sdk : Collaborators) (ctx : Context)
    (optFns : list config.LoadOption) : M (reply aws.Config) :=
  emit (EvLoadDefaultConfig ctx optFns) ;;
  ret (on_LoadDefaultConfig sdk ctx optFns).

Definition sts_NewFromConfig (cfg : aws.Config) : M sts_Client :=
  emit EvStsNewFromConfig ;;
  ret {| sts_options := cfg |}.

Definition sts_AssumeRole (sdk : Collaborators) (c : sts_Client) (ctx : Context)
    (params : sts.AssumeRoleInput) : M (reply sts.AssumeRoleOutput) :=
  emit (EvAssumeRole ctx params) ;;
  ret (on_AssumeRole sdk c ctx params).

Definition sts_GetCallerIdentity (sdk : Collaborators) (c : sts_Client)
    (ctx : Context) : M (reply sts.GetCallerIdentityOutput) :=
  emit (EvGetCallerIdentity ctx) ;;
  ret (on_GetCallerIdentity sdk c ctx).

(** Modelled from the spec: the request pipeline of the SDK is not under
    src/.  A request takes its credentials from the credential source of the
    client's configuration at the moment it is made (5: credential refresh
    "is evaluated lazily at the moment a credential is consumed by an
    underlying call").  [installed] is the cache that the package has put in
    that configuration, if it has: the call is then, before the identity
    service is asked, a credential request to that cache, which runs the
    provider of the package; a failure to get credentials is the error of the
    call.  The sources that the SDK resolved itself are the collaborator's
    business and part of its reply.  The calls made later with a handle
    ([GetCallerIdentity], [GetLatestJsonSecretValue]) are written without
    this step: the provider of a handle has returned at the verification, and
    it ends every call in the same way. *)
Definition sts_GetCallerIdentity_signed (sdk : Collaborators)
    (installed : option aws.CredentialsCache) (c : sts_Client) (ctx : Context)
  : P (reply sts.GetCallerIdentityOutput) :=
  match installed with
  | None => lift (sts_GetCallerIdentity sdk c ctx)
  | Some cache =>
      (lift (emit (EvGetCallerIdentity ctx)) ;;
       r <- lift (aws.Retrieve cache ctx (time_Now sdk)) ;;
       match fst r with
       | Panicked reason => panic reason
       | Returned (_, Some err) => pret (Err err)
       | Returned (_, None) => pret (on_GetCallerIdentity sdk c ctx)
       end)%panic
  end.

Definition secretsmanager_NewFromConfig (cfg : aws.Config) : M secretsmanager_Client :=
  emit EvSecretsNewFromConfig ;;
  ret {| secretsmanager_options := cfg |}.

Definition secretsmanager_GetSecretValue (sdk : Collaborators)
    (c : secretsmanager_Client) (ctx : Context)
    (params : secretsmanager.GetSecretValueInput)
    : M (reply secretsmanager.GetSecretValueOutput) :=
  emit (EvGetSecretValue ctx params) ;;
  ret (on_GetSecretValue sdk c ctx params).

(** [encoding/json].  [json.Unmarshal] first checks that the whole input is
    well formed and returns the syntax error without touching [v] when it is
    not; only well-formed input is decoded into [v].  Which inputs are well
    formed, and how a well-formed one fills a value of the caller's shape [T],
    is the library's business. *)
Module json.

Record Decoder (T : Type) : Type := {
  checkValid : bytes -> option error;
  unmarshal : bytes -> T -> T * option error
}.

Definition Unmarshal {T} (d : Decoder T) (data : bytes) (v : T) : T * option error :=
  match checkValid d data with
  | Some err => (v, Some err)
  | None => unmarshal d data v
  end.

End json.

(** ** The package: [pkg/egaws/eqaws.go] *)

Record EGAwsClient : Type := {
  cfg : aws.Config;
  stsClient : sts_Client;
  secretsClient : secretsmanager_Client
}.

(** [NewEGAwsClientArgs].  The calls made on [Logger] are the [EvDebug]
    events of the trace. *)
Record NewEGAwsClientArgs : Type := {
  Logger : option logging_Logger;
  Region : string;
  AssumeRoleArn : string;
  RetryMaxAttempts : Z;
  RetryMode : aws_RetryMode;
  HTTPClient : option http_Client
}.

(** The function literal of [NewEGAwsClient] (lines 78-85), closed over
    [result], the reply to the role-assumption exchange.  It reads four
    fields through pointers; reading through nil panics. *)
Definition NewEGAwsClient_func1 (result : sts.AssumeRoleOutput)
  : aws.CredentialsProviderFunc :=
  fun _ctx =>
    match sts.Credentials result with
    | None => ret (Panicked nil_dereference)
    | Some credentials =>
      match types.AccessKeyId credentials with
      | None => ret (Panicked nil_dereference)
      | Some accessKeyId =>
      match types.SecretAccessKey credentials with
      | None => ret (Panicked nil_dereference)
      | Some secretAccessKey =>
      match types.SessionToken credentials with
      | None => ret (Panicked nil_dereference)
      | Some sessionToken =>
      match types.Expiration credentials with
      | None => ret (Panicked nil_dereference)
      | Some expiration =>
          ret (Returned
                 ({| aws.AccessKeyID := accessKeyId;
                     aws.SecretAccessKey := secretAccessKey;
                     aws.SessionToken := sessionToken;
                     aws.Source := "";
                     aws.CanExpire := false;
                     aws.Expires := expiration;
                     aws.AccountID := "" |}, None))
      end end end end
    end.

(** [args] is a pointer: [None] is nil. *)
Definition NewEGAwsClient (sdk : Collaborators) (ctx : Context)
    (args : option NewEGAwsClientArgs) : P (option EGAwsClient * option error) :=
  match args with
  | None => panic nil_dereference (* args.Region, line 42 *)
  | Some args =>
  ((* Build config options *)
   let configOpts := [config.WithRegion (Region args)] in
   (* Configure retry behavior *)
   configOpts <-
     (if 0 <? RetryMaxAttempts args then
        let configOpts :=
          configOpts ++ [config.WithRetryMaxAttempts (RetryMaxAttempts args)] in
        Logger_Debug (Logger args) "configured retry max attempts"
          [("maxAttempts", attr_int (RetryMaxAttempts args))] ;;
        pret configOpts
      else pret configOpts) ;;
   configOpts <-
     (if negb (RetryMode args =? "")%string then
        let configOpts := configOpts ++ [config.WithRetryMode (RetryMode args)] in
        Logger_Debug (Logger args) "configured retry mode"
          [("mode", attr_string (RetryMode args))] ;;
        pret configOpts
      else pret configOpts) ;;
   (* Configure custom HTTP client if provided *)
   configOpts <-
     (match HTTPClient args with
      | Some httpClient =>
        let configOpts := configOpts ++ [config.WithHTTPClient httpClient] in
        Logger_Debug (Logger args) "using custom HTTP client" [] ;;
        pret configOpts
      | None => pret configOpts
      end) ;;
   loaded <- lift (config_LoadDefaultConfig sdk ctx configOpts) ;;
   match loaded with
   | Err err => pret (None, Some (fmt_Errorf_w "failed to load AWS config" err))
   | Ok cfg =>
     Logger_Debug (Logger args)
       "loaded AWS config from default credentials chain" [] ;;
     stsClient <- lift (sts_NewFromConfig cfg) ;;
     (* lines 90-102, reached from both branches of the test on AssumeRoleArn;
        [installed] is the cache of line 78 when that line was run *)
     let verify_and_build (cfg : aws.Config) (stsClient : sts_Client)
         (installed : option aws.CredentialsCache) :=
       identified <- sts_GetCallerIdentity_signed sdk installed stsClient ctx ;;
       match identified with
       | Err err =>
           pret (None, Some (fmt_Errorf_w "failed to get caller identity" err))
       | Ok id =>
         Logger_Debug (Logger args) "caller identity"
           [("identity", attr_identity id)] ;;
         secretsClient <- lift (secretsmanager_NewFromConfig cfg) ;;
         pret (Some {| cfg := cfg; stsClient := stsClient;
                       secretsClient := secretsClient |}, None)
       end in
     if negb (AssumeRoleArn args =? "")%string then
       Logger_Debug (Logger args) "AssumeRoleArn is set; assuming role"
         [("roleArn", attr_string (AssumeRoleArn args))] ;;
       assumed <- lift (sts_AssumeRole sdk stsClient ctx
                          {| sts.RoleArn := aws_String (AssumeRoleArn args) |}) ;;
       match assumed with
       | Err err => pret (None, Some (fmt_Errorf_w "failed to assume role" err))
       | Ok result =>
         let cache := aws.NewCredentialsCache (NewEGAwsClient_func1 result) in
         let cfg := aws.set_Credentials cfg (aws.Cached cache) in
         Logger_Debug (Logger args) "assume role successful"
           [("roleArn", attr_string (AssumeRoleArn args))] ;;
         stsClient <- lift (sts_NewFromConfig cfg) ;;
         verify_and_build cfg stsClient (Some cache)
       end
     else verify_and_build cfg stsClient None
   end)%panic
  end.

(** [GetCallerIdentity] retrieves information about the current identity. *)
Definition GetCallerIdentity (sdk : Collaborators) (c : EGAwsClient)
    (ctx : Context) : M (reply sts.GetCallerIdentityOutput) :=
  sts_GetCallerIdentity sdk (stsClient c) ctx.

Definition GetConfig (c : EGAwsClient) : aws.Config := cfg c.
Definition GetSTSClient (c : EGAwsClient) : sts_Client := stsClient c.
Definition GetSecretsClient (c : EGAwsClient) : secretsmanager_Client :=
  secretsClient c.

(** Gets the latest value of [secretNameOrArn] and unmarshals it into
    [result].  The model returns the destination as the call leaves it, next
    to the error. *)
Definition GetLatestJsonSecretValue {T : Type} (sdk : Collaborators)
    (dec : json.Decoder T) (c : EGAwsClient) (ctx : Context)
    (secretNameOrArn : string) (result : T) : M (T * option error) :=
  fetched <- secretsmanager_GetSecretValue sdk (secretsClient c) ctx
               {| secretsmanager.SecretId := aws_String secretNameOrArn |} ;;
  match fetched with
  | Err err => ret (result, Some (eris_Wrap err "failed to get secret value"))
  | Ok output =>
    (* lines 152-157 *)
    let unmarshal (byteValue : bytes) :=
      let (result, err) := json.Unmarshal dec byteValue result in
      match err with
      | Some err => ret (result, Some (eris_Wrap err "failed to unmarshal byte value"))
      | None => ret (result, None)
      end in
    match secretsmanager.SecretString output with
    | Some secretString => unmarshal (bytes_of_string secretString)
    | None =>
      match secretsmanager.SecretBinary output with
      | Some secretBinary => unmarshal secretBinary
      | None => ret (result, Some (eris_New "secret found but value is empty"))
      end
    end
  end.

(** ** The package [httpserver] and the surface of the libraries it uses *)

(** [interface{}] values that the router hands to a log entry. *)
Inductive any : Type :=
| any_nil
| any_string (s : string)
| any_int (n : Z)
| any_error (err : error).

(** [time.Duration], in nanoseconds. *)
Definition Duration := Z.

(** [http.Header]. *)
Definition http_Header := list (string * list string).

(** [string(b)] for a [[]byte]; the nil slice gives the empty string. *)
Definition string_of_bytes (b : bytes) : string := string_of_list_byte b.

(** [fmt.Sprintf(":%d", n)]: a colon, then [n] in decimal, with a minus sign
    for a negative [n]. *)
Definition fmt_Sprintf_colon_d (n : Z) : string :=
  (":" ++ NilZero.string_of_int (Z.to_int n))%string.

Module logrus.

Inductive Formatter : Type :=
| TextFormatter
| JSONFormatter.

Inductive Level : Type :=
| PanicLevel | FatalLevel | ErrorLevel | WarnLevel
| InfoLevel | DebugLevel | TraceLevel.

(** [*logrus.Logger], restricted to what the package sets; [None] is the nil
    pointer wherever a logger is held. *)
Record Logger : Type := {
  Formatter_ : Formatter;
  Level_ : Level
}.

(** [logrus.New()]. *)
Definition New : Logger := {| Formatter_ := TextFormatter; Level_ := InfoLevel |}.

(** [logger.SetFormatter(f)]. *)
Definition SetFormatter (logger : Logger) (f : Formatter) : Logger :=
  {| Formatter_ := f; Level_ := Level_ logger |}.

(** The values the package puts in [logrus.Fields]. *)
Inductive field : Type :=
| field_int (n : Z)
| field_duration (d : Duration)
| field_string (s : string)
| field_any (v : any).

(** [logrus.Fields], in the order of the composite literal. *)
Definition Fields := list (string * field).

(** [*logrus.Entry]: a logger with fields. *)
Record Entry : Type := {
  Logger_ : Logger;
  Data : Fields
}.

(** One line that a leveled method of an entry hands to the output of
    its logger. *)
Record Logged : Type := {
  entry : Entry;
  level : Level;
  message : string
}.

(** The levels as numbers, from [PanicLevel], the most severe, upwards. *)
Definition severity (l : Level) : nat :=
  match l with
  | PanicLevel => 0
  | FatalLevel => 1
  | ErrorLevel => 2
  | WarnLevel => 3
  | InfoLevel => 4
  | DebugLevel => 5
  | TraceLevel => 6
  end.

(** [logger.IsLevelEnabled(level)]: the level of the logger is [level] or a
    more verbose one. *)
Definition IsLevelEnabled (logger : Logger) (l : Level) : bool :=
  Nat.leb (severity l) (severity (Level_ logger)).

(** [logger.WithFields(fields)]; it reads through the logger. *)
Definition WithFields (logger : option Logger) (fields : Fields) : outcome Entry :=
  match logger with
  | None => Panicked nil_dereference
  | Some l => Returned {| Logger_ := l; Data := fields |}
  end.

(** [entry.Info(msg)] and [entry.Error(msg)] log when their level is
    enabled on the logger of the entry. *)
Definition Info (e : Entry) (msg : string) : list Logged :=
  if IsLevelEnabled (Logger_ e) InfoLevel
  then [{| entry := e; level := InfoLevel; message := msg |}]
  else [].

Definition Error (e : Entry) (msg : string) : list Logged :=
  if IsLevelEnabled (Logger_ e) ErrorLevel
  then [{| entry := e; level := ErrorLevel; message := msg |}]
  else [].

End logrus.

Module httpserver.

(** [*http.Request], restricted to [r.URL.Path]. *)
Record Request : Type := { URL_Path : string }.

(** [customLogFormatter] skips logging for health check endpoints. *)
Record customLogFormatter : Type := {
  formatter_Logger : option logrus.Logger;
  formatter_NoColor : bool
}.

(** [defaultLogEntry] provides basic logging functionality. *)
Record defaultLogEntry : Type := {
  entry_Logger : option logrus.Logger;
  entry_NoColor : bool
}.

(** [middleware.LogEntry], by the type behind the interface;
    [noopLogEntry] is an empty struct. *)
Inductive LogEntry : Type :=
| noopLogEntry
| defaultLogEntry_ (e : defaultLogEntry).

Definition NewLogEntry (l : customLogFormatter) (r : Request) : LogEntry :=
  (* Skip logging for health check endpoints *)
  if ((URL_Path r =? "/healthz") || (URL_Path r =? "/"))%string then
    noopLogEntry
  else
    (* Use the default formatter for other requests *)
    defaultLogEntry_ {| entry_Logger := formatter_Logger l;
                        entry_NoColor := formatter_NoColor l |}.

(** The methods return nothing; what a call does is the list of the log
    calls it makes, unless it panics. *)
Definition noopLogEntry_Write (status bytes : Z) (header : http_Header)
    (elapsed : Duration) (extra : any) : outcome (list logrus.Logged) :=
  Returned [].

Definition noopLogEntry_Panic (v : any) (stack : bytes)
  : outcome (list logrus.Logged) :=
  Returned [].

Definition defaultLogEntry_Write (e : defaultLogEntry) (status bytes : Z)
    (header : http_Header) (elapsed : Duration) (extra : any)
  : outcome (list logrus.Logged) :=
  match logrus.WithFields (entry_Logger e)
          [("status", logrus.field_int status);
           ("bytes", logrus.field_int bytes);
           ("elapsed", logrus.field_duration elapsed)] with
  | Panicked reason => Panicked reason
  | Returned fields => Returned (logrus.Info fields "HTTP request completed")
  end.

Definition defaultLogEntry_Panic (e : defaultLogEntry) (v : any) (stack : bytes)
  : outcome (list logrus.Logged) :=
  match logrus.WithFields (entry_Logger e)
          [("panic", logrus.field_any v);
           ("stack", logrus.field_string (string_of_bytes stack))] with
  | Panicked reason => Panicked reason
  | Returned fields => Returned (logrus.Error fields "HTTP request panic")
  end.

(** Calls through the interface. *)
Definition Write (e : LogEntry) (status bytes : Z) (header : http_Header)
    (elapsed : Duration) (extra : any) : outcome (list logrus.Logged) :=
  match e with
  | noopLogEntry => noopLogEntry_Write status bytes header elapsed extra
  | defaultLogEntry_ e => defaultLogEntry_Write e status bytes header elapsed extra
  end.

Definition Panic (e : LogEntry) (v : any) (stack : bytes)
  : outcome (list logrus.Logged) :=
  match e with
  | noopLogEntry => noopLogEntry_Panic v stack
  | defaultLogEntry_ e => defaultLogEntry_Panic e v stack
  end.

(** [io.Writer], as far as the package names one. *)
Inductive io_Writer : Type :=
| io_Discard
| os_Stderr.

(** [log.New(out, prefix, flag)]. *)
Record log_Logger : Type := {
  out : io_Writer;
  prefix : string;
  flag : Z
}.

(** A middleware of the router, by the constructor that made it. *)
Inductive Middleware : Type :=
| middleware_RequestLogger (f : customLogFormatter).

(** [*chi.Mux], restricted to its middleware stack. *)
Record chi_Mux : Type := { middlewares : list Middleware }.

Definition chi_NewRouter : chi_Mux := {| middlewares := [] |}.

(** [r.Use(m)] appends to the middleware stack. *)
Definition chi_Use (r : chi_Mux) (m : Middleware) : chi_Mux :=
  {| middlewares := middlewares r ++ [m] |}.

(** [http.Server], restricted to the fields the package sets. *)
Record http_Server : Type := {
  Addr : string;
  Handler : chi_Mux;
  ErrorLog : log_Logger
}.

Record EasyGoHTTPServer : Type := {
  server : http_Server;
  Chi : chi_Mux
}.

Record NewEasyGoHTTPServerArgs : Type := {
  Logger : option logrus.Logger;
  Port : Z
}.

Definition GetHttpServer (s : EasyGoHTTPServer) : http_Server := server s.

(** [args] is a pointer: [None] is nil, and the function writes the logger
    it makes into the caller's struct, which is returned next to the
    server. *)
Definition NewEasyGoHTTPServer (args : option NewEasyGoHTTPServerArgs)
  : outcome (EasyGoHTTPServer * NewEasyGoHTTPServerArgs) :=
  match args with
  | None => Panicked nil_dereference
  | Some args =>
    let args :=
      match Logger args with
      | None =>
          {| Logger := Some (logrus.SetFormatter logrus.New logrus.JSONFormatter);
             Port := Port args |}
      | Some _ => args
      end in
    let r := chi_NewRouter in
    (* Create a custom logger that skips health check endpoints *)
    let r := chi_Use r (middleware_RequestLogger
                          {| formatter_Logger := Logger args;
                             formatter_NoColor := true |}) in
    let server :=
      {| Addr := fmt_Sprintf_colon_d (Port args);
         Handler := r;
         ErrorLog := {| out := io_Discard; prefix := ""; flag := 0 |} |} in
    Returned ({| server := server; Chi := r |}, args)
  end.

End httpserver.

(** ** Stand-in collaborators, for running the package on concrete inputs *)

Module fake.

(** A resolver that copies what the options ask for. *)
Definition resolve (optFns : list config.LoadOption) : aws.Config :=
  let o := config.requested optFns in
  {| aws.Region := config.Region o;
     aws.Credentials_ := aws.Resolved 0;
     aws.RetryMaxAttempts := config.RetryMaxAttempts o;
     aws.RetryMode := config.RetryMode o;
     aws.HTTPClient := config.HTTPClient o |}.

Definition credentials : types.Credentials :=
  {| types.AccessKeyId := Some "ASIAEXAMPLE";
     types.SecretAccessKey := Some "secret";
     types.SessionToken := Some "token";
     types.Expiration := Some 3600 |}.

Definition identity : sts.GetCallerIdentityOutput :=
  {| sts.Account := Some "123456789012";
     sts.Arn := Some "arn:aws:sts::123456789012:assumed-role/r/s";
     sts.UserId := Some "AROAEXAMPLE" |}.

(** Collaborators of which each operation fails or not, as asked; the
    secret store replies [secret]. *)
Definition sdk (load assume identify : option error)
    (secret : reply secretsmanager.GetSecretValueOutput) : Collaborators :=
  {| on_LoadDefaultConfig := fun _ optFns =>
       match load with Some e => Err e | None => Ok (resolve optFns) end;
     on_AssumeRole := fun _ _ _ =>
       match assume with
       | Some e => Err e
       | None => Ok {| sts.Credentials := Some credentials |}
       end;
     on_GetCallerIdentity := fun _ _ =>
       match identify with Some e => Err e | None => Ok identity end;
     on_GetSecretValue := fun _ _ _ => secret;
     time_Now := 0 |}.

Definition no_secret : reply secretsmanager.GetSecretValueOutput :=
  Err (Foreign "ResourceNotFoundException").

(** Collaborators that never fail. *)
Definition healthy : Collaborators := sdk None None None no_secret.

Definition logger : logging_Logger := FieldLogger 0.

Definition args (roleArn : string) (retryMaxAttempts : Z) : NewEGAwsClientArgs :=
  {| Logger := Some logger; Region := "eu-west-1"; AssumeRoleArn := roleArn;
     RetryMaxAttempts := retryMaxAttempts; RetryMode := "";
     HTTPClient := None |}.

(** The same arguments with the zero value of [Logger], the nil interface. *)
Definition args_without_logger (roleArn : string) (retryMaxAttempts : Z)
  : NewEGAwsClientArgs :=
  {| Logger := None; Region := "eu-west-1"; AssumeRoleArn := roleArn;
     RetryMaxAttempts := retryMaxAttempts; RetryMode := "";
     HTTPClient := None |}.

(** Collaborators that never fail, but whose identity service leaves the
    session token out of the credentials of a role. *)
Definition tokenless : Collaborators :=
  {| on_LoadDefaultConfig := fun _ optFns => Ok (resolve optFns);
     on_AssumeRole := fun _ _ _ =>
       Ok {| sts.Credentials :=
               Some {| types.AccessKeyId := Some "ASIAEXAMPLE";
                       types.SecretAccessKey := Some "secret";
                       types.SessionToken := None;
                       types.Expiration := Some 3600 |} |};
     on_GetCallerIdentity := fun _ _ => Ok identity;
     on_GetSecretValue := fun _ _ _ => no_secret;
     time_Now := 0 |}.

Definition role : string := "arn:aws:iam::123456789012:role/reader".

Definition handle : EGAwsClient :=
  let cfg := resolve [config.WithRegion "eu-west-1"] in
  {| cfg := cfg; stsClient := {| sts_options := cfg |};
     secretsClient := {| secretsmanager_options := cfg |} |}.

(** A decoder for destinations that hold one number: the well-formed
    documents are the ones made of the single digit [7]. *)
Definition decoder : json.Decoder Z :=
  {| json.checkValid := fun data =>
       match data with
       | [x37] => None
       | [] => Some (Foreign "unexpected end of JSON input")
       | _ => Some (Foreign "invalid character")
       end;
     json.unmarshal := fun _ _ => (7, None) |}.

End fake.

(** * Reading a run *)

(** ** Observations on traces *)

Inductive Stage : Type :=
| Resolve              (* config.LoadDefaultConfig *)
| Provision            (* the role-assumption exchange *)
| Verify               (* get caller identity *)
| BuildSecretsClient.  (* secretsmanager.NewFromConfig *)

Definition stage_of (e : Event) : option Stage :=
  match e with
  | EvLoadDefaultConfig _ _ => Some Resolve
  | EvAssumeRole _ _ => Some Provision
  | EvGetCallerIdentity _ => Some Verify
  | EvSecretsNewFromConfig => Some BuildSecretsClient
  | EvDebug _ _ | EvStsNewFromConfig | EvGetSecretValue _ _ => None
  end.

(** The stages a trace went through, in the order it went through them. *)
Fixpoint stages (t : list Event) : list Stage :=
  match t with
  | [] => []
  | e :: t' =>
      match stage_of e with
      | Some s => s :: stages t'
      | None => stages t'
      end
  end.

(** The option lists handed to [config.LoadDefaultConfig] in a trace. *)
Fixpoint loaded_with (t : list Event) : list (list config.LoadOption) :=
  match t with
  | [] => []
  | EvLoadDefaultConfig _ optFns :: t' => optFns :: loaded_with t'
  | _ :: t' => loaded_with t'
  end.

Definition is_StsNewFromConfig (e : Event) : bool :=
  match e with EvStsNewFromConfig => true | _ => false end.

Definition sts_clients_built (t : list Event) : nat :=
  List.length (filter is_StsNewFromConfig t).

(** The handle of a run, when it returns one. *)
Definition handle_of (run : P (option EGAwsClient * option error))
  : option EGAwsClient :=
  match value run with
  | Returned (h, _) => h
  | Panicked _ => None
  end.

(** ** Credential requests after bootstrap *)

(** A sequence of credential requests served by one cache, each at its own
    context and time; the cache is handed from one request to the next. *)
Fixpoint serve (c : aws.CredentialsCache) (requests : list (Context * Time))
  : M (list (outcome (aws.Credentials * option error))) :=
  match requests with
  | [] => ret []
  | (ctx, now) :: rest =>
      r <- aws.Retrieve c ctx now ;;
      served <- serve (snd r) rest ;;
      ret (fst r :: served)
  end.

(** A cache is settled on [o] when its provider always ends in [o] without
    an event, and what it holds, if anything, is what [o] returned. *)
Definition settled_on (o : outcome (aws.Credentials * option error))
    (c : aws.CredentialsCache) : Prop :=
  (forall ctx, aws.provider c ctx = ret o)
  /\ (forall creds, aws.cached c = Some creds -> o = Returned (creds, None)).

(** The reply to the exchange carries the four credential fields. *)
Definition carries_all_fields (result : sts.AssumeRoleOutput) : bool :=
  match sts.Credentials result with
  | Some c =>
      match types.AccessKeyId c, types.SecretAccessKey c,
            types.SessionToken c, types.Expiration c with
      | Some _, Some _, Some _, Some _ => true
      | _, _, _, _ => false
      end
  | None => false
  end.

(** The credential set made of the four values of a reply. *)
Definition credential_set (accessKeyId secretAccessKey sessionToken : string)
    (expiration : Time) : aws.Credentials :=
  {| aws.AccessKeyID := accessKeyId; aws.SecretAccessKey := secretAccessKey;
     aws.SessionToken := sessionToken; aws.Source := ""; aws.CanExpire := false;
     aws.Expires := expiration; aws.AccountID := "" |}.

(** ** The secrets accessor *)

(** The bytes a reply of the store is decoded from, if any. *)
Definition byteValue_of (output : secretsmanager.GetSecretValueOutput)
  : option bytes :=
  match secretsmanager.SecretString output with
  | Some secretString => Some (bytes_of_string secretString)
  | None => secretsmanager.SecretBinary output
  end.

(** What [json.Unmarshal] of [data] into [dest] makes of the destination,
    with its error, if any, wrapped as line 154 wraps it. *)
Definition decoded {T : Type} (dec : json.Decoder T) (data : bytes) (dest : T)
  : T * option error :=
  (fst (json.Unmarshal dec data dest),
   match snd (json.Unmarshal dec data dest) with
   | Some err => Some (eris_Wrap err "failed to unmarshal byte value")
   | None => None
   end).

Definition stored (secretString : option string) (secretBinary : option bytes)
  : reply secretsmanager.GetSecretValueOutput :=
  Ok {| secretsmanager.SecretString := secretString;
        secretsmanager.SecretBinary := secretBinary |}.

(** ** Arguments and errors *)

(** [args] with its [RetryMaxAttempts] replaced. *)
Definition with_RetryMaxAttempts (args : NewEGAwsClientArgs) (v : Z)
  : NewEGAwsClientArgs :=
  {| Logger := Logger args; Region := Region args;
     AssumeRoleArn := AssumeRoleArn args;
     RetryMaxAttempts := v; RetryMode := RetryMode args;
     HTTPClient := HTTPClient args |}.


(** [wraps description cause e]: [e] is [cause] wrapped with [description],
    by [fmt.Errorf] with [%w] or by [eris.Wrap]. *)
Inductive wraps (description : string) (cause : error) : error -> Prop :=
| wraps_Errorf : wraps description cause (fmt_Errorf_w description cause)
| wraps_eris : wraps description cause (eris_Wrap cause description).


(** ** The bootstrap sequence in closed form *)

(** The option list of lines 41-60. *)
Definition configOpts_of (args : NewEGAwsClientArgs) : list config.LoadOption :=
  [config.WithRegion (Region args)]
  ++ (if 0 <? RetryMaxAttempts args
      then [config.WithRetryMaxAttempts (RetryMaxAttempts args)] else [])
  ++ (if (RetryMode args =? "")%string
      then [] else [config.WithRetryMode (RetryMode args)])
  ++ (match HTTPClient args with
      | Some httpClient => [config.WithHTTPClient httpClient]
      | None => []
      end).

(** The lines logged while the options are built. *)
Definition configLog_of (args : NewEGAwsClientArgs) : list Event :=
  (if 0 <? RetryMaxAttempts args
   then [EvDebug "configured retry max attempts"
                 [("maxAttempts", attr_int (RetryMaxAttempts args))]] else [])
  ++ (if (RetryMode args =? "")%string
      then [] else [EvDebug "configured retry mode"
                            [("mode", attr_string (RetryMode args))]])
  ++ (match HTTPClient args with
      | Some _ => [EvDebug "using custom HTTP client" []]
      | None => []
      end).

(** Lines 90-102 in closed form. *)
Definition verified (sdk : Collaborators) (ctx : Context) (cfg : aws.Config)
  : M (option EGAwsClient * option error) :=
  let stsClient := {| sts_options := cfg |} in
  match on_GetCallerIdentity sdk stsClient ctx with
  | Err err =>
      ((None, Some (fmt_Errorf_w "failed to get caller identity" err)),
       [EvGetCallerIdentity ctx])
  | Ok id =>
      ((Some {| cfg := cfg; stsClient := stsClient;
                secretsClient := {| secretsmanager_options := cfg |} |}, None),
       [EvGetCallerIdentity ctx;
        EvDebug "caller identity" [("identity", attr_identity id)];
        EvSecretsNewFromConfig])
  end.

(** The configuration after a successful exchange (line 78). *)
Definition assumed_cfg (cfg : aws.Config) (result : sts.AssumeRoleOutput) : aws.Config :=
  aws.set_Credentials cfg
    (aws.Cached (aws.NewCredentialsCache (NewEGAwsClient_func1 result))).

(** A run whose arguments hold a logger. *)
Definition run_with_logger (sdk : Collaborators) (ctx : Context)
    (args : NewEGAwsClientArgs) : P (option EGAwsClient * option error) :=
  let opts := configOpts_of args in
  let resolve := configLog_of args ++ [EvLoadDefaultConfig ctx opts] in
  match on_LoadDefaultConfig sdk ctx opts with
  | Err err =>
      (Returned (None, Some (fmt_Errorf_w "failed to load AWS config" err)), resolve)
  | Ok cfg =>
    let loaded :=
      resolve ++ [EvDebug "loaded AWS config from default credentials chain" [];
                  EvStsNewFromConfig] in
    if (AssumeRoleArn args =? "")%string then
      (Returned (value (verified sdk ctx cfg)),
       loaded ++ trace (verified sdk ctx cfg))
    else
      let roleArn := [("roleArn", attr_string (AssumeRoleArn args))] in
      let input := {| sts.RoleArn := Some (AssumeRoleArn args) |} in
      let exchange :=
        loaded ++ [EvDebug "AssumeRoleArn is set; assuming role" roleArn;
                   EvAssumeRole ctx input] in
      match on_AssumeRole sdk {| sts_options := cfg |} ctx input with
      | Err err =>
          (Returned (None, Some (fmt_Errorf_w "failed to assume role" err)), exchange)
      | Ok result =>
        let cfg := assumed_cfg cfg result in
        let rebuilt :=
          exchange ++ [EvDebug "assume role successful" roleArn;
                       EvStsNewFromConfig] in
        if carries_all_fields result then
          (Returned (value (verified sdk ctx cfg)),
           rebuilt ++ trace (verified sdk ctx cfg))
        else
          (Panicked nil_dereference, rebuilt ++ [EvGetCallerIdentity ctx])
      end
  end.

(** The arguments make bootstrap log before it resolves: one of the tests
    of lines 46-60 holds. *)
Definition logs_before_resolving (args : NewEGAwsClientArgs) : bool :=
  (0 <? RetryMaxAttempts args)
  || negb (RetryMode args =? "")%string
  || match HTTPClient args with Some _ => true | None => false end.

(** A run whose arguments hold no logger: it panics at the first line it
    would log, which it reaches unless resolution fails first. *)
Definition run_without_logger (sdk : Collaborators) (ctx : Context)
    (args : NewEGAwsClientArgs) : P (option EGAwsClient * option error) :=
  if logs_before_resolving args then (Panicked nil_dereference, [])
  else
    let opts := configOpts_of args in
    match on_LoadDefaultConfig sdk ctx opts with
    | Err err =>
        (Returned (None, Some (fmt_Errorf_w "failed to load AWS config" err)),
         [EvLoadDefaultConfig ctx opts])
    | Ok _ => (Panicked nil_dereference, [EvLoadDefaultConfig ctx opts])
    end.

Definition closed_form (sdk : Collaborators) (ctx : Context)
    (args : option NewEGAwsClientArgs) : P (option EGAwsClient * option error) :=
  match args with
  | None => (Panicked nil_dereference, [])
  | Some args =>
      match Logger args with
      | Some _ => run_with_logger sdk ctx args
      | None => run_without_logger sdk ctx args
      end
  end.

(** ** Calls on a log entry *)

(** A call of one of the two methods of a log entry. *)
Inductive EntryCall : Type :=
| call_Write (status bytes : Z) (header : http_Header) (elapsed : Duration)
    (extra : any)
| call_Panic (v : any) (stack : bytes).

Definition tell_one (e : httpserver.LogEntry) (c : EntryCall)
  : outcome (list logrus.Logged) :=
  match c with
  | call_Write status bytes header elapsed extra =>
      httpserver.Write e status bytes header elapsed extra
  | call_Panic v stack => httpserver.Panic e v stack
  end.

(** The calls of a list made one after the other on an entry, up to the
    first that panics: what they log, in order. *)
Fixpoint tell (e : httpserver.LogEntry) (calls : list EntryCall)
  : outcome (list logrus.Logged) :=
  match calls with
  | [] => Returned []
  | c :: rest =>
      match tell_one e c with
      | Panicked reason => Panicked reason
      | Returned first =>
          match tell e rest with
          | Panicked reason => Panicked reason
          | Returned others => Returned (first ++ others)
          end
      end
  end.

(** What a call leaves in the log of [logger] when it is let through. *)
Definition record_of (logger : logrus.Logger) (c : EntryCall) : logrus.Logged :=
  match c with
  | call_Write status bytes _ elapsed _ =>
      {| logrus.entry :=
           {| logrus.Logger_ := logger;
              logrus.Data := [("status", logrus.field_int status);
                              ("bytes", logrus.field_int bytes);
                              ("elapsed", logrus.field_duration elapsed)] |};
         logrus.level := logrus.InfoLevel;
         logrus.message := "HTTP request completed" |}
  | call_Panic v stack =>
      {| logrus.entry :=
           {| logrus.Logger_ := logger;
              logrus.Data := [("panic", logrus.field_any v);
                              ("stack", logrus.field_string (string_of_bytes stack))] |};
         logrus.level := logrus.ErrorLevel;
         logrus.message := "HTTP request panic" |}
  end.

(** The level at which a call logs, and whether a logger lets it through. *)
Definition call_level (c : EntryCall) : logrus.Level :=
  match c with
  | call_Write _ _ _ _ _ => logrus.InfoLevel
  | call_Panic _ _ => logrus.ErrorLevel
  end.

Definition let_through (logger : logrus.Logger) (c : EntryCall) : bool :=
  logrus.IsLevelEnabled logger (call_level c).

(** The paths of the health check endpoints. *)
Definition health_path (path : string) : Prop :=
  path = "/healthz" \/ path = "/".

(** The port of a listen address: what follows the colon, read as a decimal
    number. *)
Definition port_of_Addr (addr : string) : option Z :=
  match addr with
  | String ":" digits => option_map Z.of_int (NilZero.int_of_string digits)
  | _ => None
  end.

(** The logger a new server logs requests to. *)
Definition request_logger (args : httpserver.NewEasyGoHTTPServerArgs)
  : logrus.Logger :=
  match httpserver.Logger args with
  | Some logger => logger
  | None => {| logrus.Formatter_ := logrus.JSONFormatter;
               logrus.Level_ := logrus.InfoLevel |}
  end.

(** ** What a trace carries *)



(** The key-value pairs of the log lines of a trace. *)
Fixpoint logged (t : list Event) : list (string * attr) :=
  match t with
  | [] => []
  | EvDebug _ fields :: t' => fields ++ logged t'
  | _ :: t' => logged t'
  end.

(** The only values a bootstrap call may log: its retry cap, its retry mode,
    its role, and an identity the identity service replied with. *)
Definition loggable (sdk : Collaborators) (ctx : Context)
    (args : NewEGAwsClientArgs) (v : attr) : Prop :=
  match v with
  | attr_int n => n = RetryMaxAttempts args
  | attr_string s => s = RetryMode args \/ s = AssumeRoleArn args
  | attr_identity id => exists c, on_GetCallerIdentity sdk c ctx = Ok id
  end.


(** * Lemmas *)

(** ** Runs of bootstrap *)

Lemma NewEGAwsClient_closed_form sdk ctx args :
  NewEGAwsClient sdk ctx args = closed_form sdk ctx args.
Proof.
  destruct args as [args |]; [| reflexivity].
  unfold NewEGAwsClient, closed_form, run_with_logger, run_without_logger,
    logs_before_resolving, configOpts_of, configLog_of, verified, assumed_cfg,
    config_LoadDefaultConfig, sts_NewFromConfig, sts_AssumeRole,
    sts_GetCallerIdentity_signed, sts_GetCallerIdentity,
    secretsmanager_NewFromConfig, Logger_Debug, aws_String.
  destruct (Logger args) as [logger |];
    destruct (0 <? RetryMaxAttempts args);
    destruct (RetryMode args =? "")%string;
    destruct (HTTPClient args); cbn; try reflexivity;
    (destruct (on_LoadDefaultConfig sdk ctx _) as [cfg0 | e0];
     cbn; [| reflexivity]); try reflexivity;
    destruct (AssumeRoleArn args =? "")%string; cbn;
    try (destruct (on_AssumeRole sdk _ ctx _)
           as [[[[[a |] [s |] [t |] [e |]] |]] | e1]; cbn; try reflexivity);
    destruct (on_GetCallerIdentity sdk _ ctx) as [id | e2]; reflexivity.
Qed.

(** Case analysis along the three tests of lines 46-60. *)
Ltac option_cases args :=
  destruct (0 <? RetryMaxAttempts args), (RetryMode args =? "")%string,
    (HTTPClient args).

Lemma NewEGAwsClient_with_logger sdk ctx args logger :
  Logger args = Some logger ->
  NewEGAwsClient sdk ctx (Some args) = run_with_logger sdk ctx args.
Proof.
  intros H. rewrite NewEGAwsClient_closed_form. unfold closed_form.
  rewrite H. reflexivity.
Qed.

Lemma NewEGAwsClient_without_logger sdk ctx args :
  Logger args = None ->
  NewEGAwsClient sdk ctx (Some args) = run_without_logger sdk ctx args.
Proof.
  intros H. rewrite NewEGAwsClient_closed_form. unfold closed_form.
  rewrite H. reflexivity.
Qed.

(** Case analysis of a run on the logger of its arguments. *)
Ltac logger_cases sdk ctx args :=
  let logger := fresh "logger" in
  let Elogger := fresh "Elogger" in
  destruct (Logger args) as [logger |] eqn:Elogger;
  [ rewrite ?(NewEGAwsClient_with_logger sdk ctx args Elogger) in *
  | rewrite ?(NewEGAwsClient_without_logger sdk ctx args Elogger) in * ].

(** Case analysis of a run with a logger, along the replies of the
    collaborators: no role; a role and a complete reply; a role and an
    incomplete reply; a role refused; no configuration. *)
Ltac run_cases sdk ctx args :=
  unfold run_with_logger in *;
  let cfg0 := fresh "cfg0" in
  let e := fresh "e" in
  let result := fresh "result" in
  let Eload := fresh "Eload" in
  let Erole := fresh "Erole" in
  let Eassume := fresh "Eassume" in
  let Efields := fresh "Efields" in
  destruct (on_LoadDefaultConfig sdk ctx (configOpts_of args))
    as [cfg0 | e] eqn:Eload;
  [ destruct (AssumeRoleArn args =? "")%string eqn:Erole;
    [ | destruct (on_AssumeRole sdk {| sts_options := cfg0 |} ctx
                    {| sts.RoleArn := Some (AssumeRoleArn args) |})
          as [result | e] eqn:Eassume;
        [ destruct (carries_all_fields result) eqn:Efields | ] ]
  | ].

(** Case analysis of a run without a logger: it logs before it resolves;
    it resolves; it fails to resolve. *)
Ltac unlogged_cases sdk ctx args :=
  unfold run_without_logger in *;
  let cfg0 := fresh "cfg0" in
  let e := fresh "e" in
  let Eload := fresh "Eload" in
  let Easks := fresh "Easks" in
  destruct (logs_before_resolving args) eqn:Easks;
  [ | destruct (on_LoadDefaultConfig sdk ctx (configOpts_of args))
        as [cfg0 | e] eqn:Eload ].

Lemma verified_handle sdk ctx cfg h :
  fst (value (verified sdk ctx cfg)) = Some h ->
  h = {| cfg := cfg; stsClient := {| sts_options := cfg |};
         secretsClient := {| secretsmanager_options := cfg |} |}.
Proof.
  unfold verified. destruct (on_GetCallerIdentity sdk _ ctx); cbn; congruence.
Qed.

(** The configuration of a handle differs from the resolved one in its
    credential source at most. *)
Lemma handle_cfg sdk ctx args h err :
  value (NewEGAwsClient sdk ctx (Some args)) = Returned (Some h, err) ->
  exists cfg0,
    on_LoadDefaultConfig sdk ctx (configOpts_of args) = Ok cfg0
    /\ ((AssumeRoleArn args =? "")%string = true /\ cfg h = cfg0
        \/ (AssumeRoleArn args =? "")%string = false
           /\ exists result, cfg h = assumed_cfg cfg0 result)
    /\ stsClient h = {| sts_options := cfg h |}
    /\ secretsClient h = {| secretsmanager_options := cfg h |}.
Proof.
  intros Hh. logger_cases sdk ctx args.
  - run_cases sdk ctx args; cbn [value fst] in Hh; try discriminate Hh;
      injection Hh as Hh; apply (f_equal fst) in Hh; cbn [fst] in Hh;
      apply verified_handle in Hh; subst h; cbn; exists cfg0;
      (split; [reflexivity |]); (split; [| split; reflexivity]).
    + left. split; reflexivity.
    + right. split; [reflexivity |]. exists result. reflexivity.
  - unlogged_cases sdk ctx args; discriminate Hh.
Qed.




(** ** Traces of bootstrap *)

Lemma exchanges_app (t1 t2 : list Event) :
  exchanges (t1 ++ t2) = (exchanges t1 + exchanges t2)%nat.
Proof. unfold exchanges. rewrite filter_app, length_app. reflexivity. Qed.

Lemma configLog_no_exchange args : exchanges (configLog_of args) = 0%nat.
Proof.
  unfold configLog_of. option_cases args; reflexivity.
Qed.

Lemma verified_no_exchange sdk ctx cfg :
  exchanges (trace (verified sdk ctx cfg)) = 0%nat.
Proof.
  unfold verified. destruct (on_GetCallerIdentity sdk _ ctx); reflexivity.
Qed.





Lemma loaded_with_app t1 t2 : loaded_with (t1 ++ t2) = loaded_with t1 ++ loaded_with t2.
Proof.
  induction t1 as [| e t1 IH]; [reflexivity |].
  destruct e; cbn; rewrite IH; reflexivity.
Qed.

Lemma configLog_loads_nothing args : loaded_with (configLog_of args) = [].
Proof.
  unfold configLog_of. option_cases args; reflexivity.
Qed.

Lemma loaded_with_run sdk ctx args logger :
  Logger args = Some logger ->
  loaded_with (trace (NewEGAwsClient sdk ctx (Some args))) = [configOpts_of args].
Proof.
  intros Hl. rewrite (NewEGAwsClient_with_logger sdk ctx args Hl).
  run_cases sdk ctx args; unfold verified;
    try destruct (on_GetCallerIdentity sdk _ ctx);
    cbn [value trace fst snd];
    rewrite ?loaded_with_app, ?configLog_loads_nothing; reflexivity.
Qed.

(** The resolver is asked at most once, and for the option list of the
    arguments. *)
Lemma loaded_with_any_run sdk ctx args :
  loaded_with (trace (NewEGAwsClient sdk ctx (Some args))) = []
  \/ loaded_with (trace (NewEGAwsClient sdk ctx (Some args))) = [configOpts_of args].
Proof.
  destruct (Logger args) as [logger |] eqn:Elogger.
  - right. apply (loaded_with_run sdk ctx args Elogger).
  - rewrite (NewEGAwsClient_without_logger sdk ctx args Elogger).
    unlogged_cases sdk ctx args; cbn; tauto.
Qed.

Lemma loaded_with_returned sdk ctx args r :
  value (NewEGAwsClient sdk ctx (Some args)) = Returned r ->
  loaded_with (trace (NewEGAwsClient sdk ctx (Some args))) = [configOpts_of args].
Proof.
  intros Hr. destruct (Logger args) as [logger |] eqn:Elogger.
  - apply (loaded_with_run sdk ctx args Elogger).
  - rewrite (NewEGAwsClient_without_logger sdk ctx args Elogger) in *.
    unlogged_cases sdk ctx args; try discriminate Hr. reflexivity.
Qed.

Lemma loaded_with_singleton sdk ctx args optFns :
  loaded_with (trace (NewEGAwsClient sdk ctx (Some args))) = [optFns] ->
  optFns = configOpts_of args.
Proof.
  intros H. destruct (loaded_with_any_run sdk ctx args) as [E | E];
    rewrite E in H; [discriminate H |].
  injection H as H. symmetry. exact H.
Qed.

Lemma configOpts_cap args :
  filter config.is_WithRetryMaxAttempts (configOpts_of args)
  = (if 0 <? RetryMaxAttempts args
     then [config.WithRetryMaxAttempts (RetryMaxAttempts args)] else [])
  /\ config.RetryMaxAttempts (config.requested (configOpts_of args))
     = (if 0 <? RetryMaxAttempts args then RetryMaxAttempts args else 0).
Proof.
  unfold configOpts_of. option_cases args; split; reflexivity.
Qed.

Lemma sts_clients_built_app t1 t2 :
  sts_clients_built (t1 ++ t2) = (sts_clients_built t1 + sts_clients_built t2)%nat.
Proof. unfold sts_clients_built. rewrite filter_app, length_app. reflexivity. Qed.

Lemma configLog_builds_no_client args : sts_clients_built (configLog_of args) = 0%nat.
Proof.
  unfold configLog_of. option_cases args; reflexivity.
Qed.

(** ** The provider and its cache *)

Lemma func1_returns accessKeyId secretAccessKey sessionToken expiration ctx :
  NewEGAwsClient_func1
    {| sts.Credentials :=
         Some {| types.AccessKeyId := Some accessKeyId;
                 types.SecretAccessKey := Some secretAccessKey;
                 types.SessionToken := Some sessionToken;
                 types.Expiration := Some expiration |} |} ctx
  = ret (Returned (credential_set accessKeyId secretAccessKey sessionToken expiration,
                   None)).
Proof. reflexivity. Qed.

Lemma func1_panics result ctx :
  carries_all_fields result = false ->
  NewEGAwsClient_func1 result ctx = ret (Panicked nil_dereference).
Proof.
  unfold carries_all_fields, NewEGAwsClient_func1.
  destruct (sts.Credentials result) as [[[a|] [s|] [t|] [e|]]|]; cbn;
    intros H; try reflexivity; discriminate H.
Qed.

(** The provider does not look at its context, and leaves no event. *)
Lemma func1_constant result ctx :
  NewEGAwsClient_func1 result ctx
  = ret (value (NewEGAwsClient_func1 result context_Background)).
Proof.
  unfold NewEGAwsClient_func1.
  destruct (sts.Credentials result) as [[[a|] [s|] [t|] [e|]]|]; reflexivity.
Qed.

Lemma func1_no_error result ctx creds err :
  value (NewEGAwsClient_func1 result ctx) <> Returned (creds, Some err).
Proof.
  unfold NewEGAwsClient_func1.
  destruct (sts.Credentials result) as [[[a|] [s|] [t|] [e|]]|]; cbn; discriminate.
Qed.

Lemma refresh_settled o c ctx :
  settled_on o c ->
  (forall creds err, o <> Returned (creds, Some err)) ->
  exists c', aws.refresh c ctx = ret (o, c') /\ settled_on o c'.
Proof.
  intros [Hp Hc] Hnoerr. unfold aws.refresh. rewrite Hp. cbn.
  destruct o as [[creds [err|]] | reason].
  - exfalso. exact (Hnoerr creds err eq_refl).
  - eexists. split; [reflexivity |]. split; cbn.
    + exact Hp.
    + intros creds' H. inversion H. reflexivity.
  - exists c. split; [reflexivity |]. split; assumption.
Qed.

Lemma Retrieve_settled o c ctx now :
  settled_on o c ->
  (forall creds err, o <> Returned (creds, Some err)) ->
  exists c', aws.Retrieve c ctx now = ret (o, c') /\ settled_on o c'.
Proof.
  intros Hs Hnoerr. unfold aws.Retrieve.
  destruct (aws.cached c) as [creds|] eqn:E.
  - destruct (aws.expired creds now).
    + apply refresh_settled; assumption.
    + exists c. split; [| exact Hs].
      destruct Hs as [_ Hc]. rewrite (Hc creds E). reflexivity.
  - apply refresh_settled; assumption.
Qed.

Lemma serve_settled o requests :
  (forall creds err, o <> Returned (creds, Some err)) ->
  forall c, settled_on o c ->
  serve c requests = ret (repeat o (List.length requests)).
Proof.
  intros Hnoerr. induction requests as [| [ctx now] rest IH]; intros c Hs.
  - reflexivity.
  - cbn [serve List.length repeat].
    destruct (Retrieve_settled ctx now Hs Hnoerr) as [c' [HR Hs']].
    rewrite HR. cbn. rewrite (IH c' Hs'). reflexivity.
Qed.

Lemma new_cache_settled result :
  settled_on (value (NewEGAwsClient_func1 result context_Background))
             (aws.NewCredentialsCache (NewEGAwsClient_func1 result)).
Proof.
  split; cbn.
  - intros ctx. apply func1_constant.
  - intros creds H. discriminate H.
Qed.

(** ** Decoding and wrapping *)

Lemma GetLatestJsonSecretValue_fetched {T : Type} sdk (dec : json.Decoder T)
    c ctx secretNameOrArn (dest : T) output :
  on_GetSecretValue sdk (secretsClient c) ctx
    {| secretsmanager.SecretId := Some secretNameOrArn |} = Ok output ->
  value (GetLatestJsonSecretValue sdk dec c ctx secretNameOrArn dest)
  = match byteValue_of output with
    | Some data => decoded dec data dest
    | None => (dest, Some (eris_New "secret found but value is empty"))
    end.
Proof.
  intros Hget.
  unfold GetLatestJsonSecretValue, secretsmanager_GetSecretValue, byteValue_of,
    decoded, aws_String, emit, ret, bind, value.
  rewrite Hget.
  destruct (secretsmanager.SecretString output) as [s|];
    [| destruct (secretsmanager.SecretBinary output) as [b|]];
    try reflexivity;
    destruct (json.Unmarshal dec _ dest) as [v [err|]]; reflexivity.
Qed.

Lemma Unmarshal_rejected {T : Type} (dec : json.Decoder T) data (dest : T) cause :
  json.checkValid dec data = Some cause ->
  json.Unmarshal dec data dest = (dest, Some cause).
Proof. intros H. unfold json.Unmarshal. rewrite H. reflexivity. Qed.

Lemma wraps_Unwrap description cause e :
  wraps description cause e -> Unwrap e = Some cause.
Proof. intros H. destruct H; reflexivity. Qed.

Lemma wraps_Error description cause e :
  wraps description cause e ->
  Error e = (description ++ ": " ++ Error cause)%string.
Proof. intros H. destruct H; reflexivity. Qed.

(** * Runs on concrete inputs *)

(** A run against healthy collaborators, with a role to assume. *)
Example healthy_run :
  trace (NewEGAwsClient fake.healthy context_Background
           (Some (fake.args fake.role 5))) =
  [EvDebug "configured retry max attempts" [("maxAttempts", attr_int 5)];
   EvLoadDefaultConfig context_Background
     [config.WithRegion "eu-west-1"; config.WithRetryMaxAttempts 5];
   EvDebug "loaded AWS config from default credentials chain" [];
   EvStsNewFromConfig;
   EvDebug "AssumeRoleArn is set; assuming role" [("roleArn", attr_string fake.role)];
   EvAssumeRole context_Background {| sts.RoleArn := Some fake.role |};
   EvDebug "assume role successful" [("roleArn", attr_string fake.role)];
   EvStsNewFromConfig;
   EvGetCallerIdentity context_Background;
   EvDebug "caller identity" [("identity", attr_identity fake.identity)];
   EvSecretsNewFromConfig].
Proof. reflexivity. Qed.

Example healthy_stages :
  stages (trace (NewEGAwsClient fake.healthy context_Background
                   (Some (fake.args fake.role 5))))
  = [Resolve; Provision; Verify; BuildSecretsClient].
Proof. reflexivity. Qed.

Example rejected_role_stages :
  NewEGAwsClient (fake.sdk None (Some (Foreign "AccessDenied")) None fake.no_secret)
    context_Background (Some (fake.args fake.role 0))
  = (Returned
       (None, Some (fmt_Errorf_w "failed to assume role" (Foreign "AccessDenied"))),
     [EvLoadDefaultConfig context_Background [config.WithRegion "eu-west-1"];
      EvDebug "loaded AWS config from default credentials chain" [];
      EvStsNewFromConfig;
      EvDebug "AssumeRoleArn is set; assuming role" [("roleArn", attr_string fake.role)];
      EvAssumeRole context_Background {| sts.RoleArn := Some fake.role |}]).
Proof. reflexivity. Qed.

Example cap_of_five_is_resolved :
  option_map (fun h => aws.RetryMaxAttempts (GetConfig h))
    (handle_of (NewEGAwsClient fake.healthy context_Background
                  (Some (fake.args fake.role 5))))
  = Some 5.
Proof. reflexivity. Qed.

Example negative_cap_run :
  NewEGAwsClient fake.healthy context_Background (Some (fake.args "" (-3)))
  = NewEGAwsClient fake.healthy context_Background (Some (fake.args "" 0)).
Proof. reflexivity. Qed.

(** Without arguments bootstrap panics at once. *)
Example nil_arguments_panic :
  NewEGAwsClient fake.healthy context_Background None
  = (Panicked nil_dereference, []).
Proof. reflexivity. Qed.

(** Without a logger and with a retry cap it panics at line 48, before it
    asks the resolver. *)
Example nil_logger_panics_at_first_line :
  NewEGAwsClient fake.healthy context_Background
    (Some (fake.args_without_logger "" 5))
  = (Panicked nil_dereference, []).
Proof. reflexivity. Qed.

(** Without a logger and with nothing to log before, it panics at line 66,
    after a successful resolution. *)
Example nil_logger_panics_after_resolution :
  NewEGAwsClient fake.healthy context_Background
    (Some (fake.args_without_logger fake.role 0))
  = (Panicked nil_dereference,
     [EvLoadDefaultConfig context_Background [config.WithRegion "eu-west-1"]]).
Proof. reflexivity. Qed.

(** Without a logger, a failed resolution is returned all the same. *)
Example nil_logger_and_no_configuration :
  NewEGAwsClient
    (fake.sdk (Some (Foreign "no region")) None None fake.no_secret)
    context_Background (Some (fake.args_without_logger fake.role 0))
  = (Returned
       (None, Some (fmt_Errorf_w "failed to load AWS config" (Foreign "no region"))),
     [EvLoadDefaultConfig context_Background [config.WithRegion "eu-west-1"]]).
Proof. reflexivity. Qed.

(** A reply to the exchange that lacks the session token makes the
    verification panic: the provider runs when the identity is asked for. *)
Example incomplete_reply_panics_in_verification :
  NewEGAwsClient fake.tokenless context_Background (Some (fake.args fake.role 0))
  = (Panicked nil_dereference,
     [EvLoadDefaultConfig context_Background [config.WithRegion "eu-west-1"];
      EvDebug "loaded AWS config from default credentials chain" [];
      EvStsNewFromConfig;
      EvDebug "AssumeRoleArn is set; assuming role" [("roleArn", attr_string fake.role)];
      EvAssumeRole context_Background {| sts.RoleArn := Some fake.role |};
      EvDebug "assume role successful" [("roleArn", attr_string fake.role)];
      EvStsNewFromConfig;
      EvGetCallerIdentity context_Background]).
Proof. reflexivity. Qed.

Example serve_across_expiry :
  serve (aws.NewCredentialsCache
           (NewEGAwsClient_func1 {| sts.Credentials := Some fake.credentials |}))
        [(context_Background, 10); (context_Derived 1, 3599);
         (context_Derived 2, 3600); (context_Background, 99999)]
  = ret (repeat (Returned (credential_set "ASIAEXAMPLE" "secret" "token" 3600, None)) 4).
Proof. reflexivity. Qed.

Example provider_panics_without_token :
  value (NewEGAwsClient_func1
           {| sts.Credentials :=
                Some {| types.AccessKeyId := Some "ASIAEXAMPLE";
                        types.SecretAccessKey := Some "secret";
                        types.SessionToken := None;
                        types.Expiration := Some 3600 |} |}
           context_Background)
  = Panicked nil_dereference.
Proof. reflexivity. Qed.

Example decoder_accepts_7 : json.checkValid fake.decoder [x37] = None.
Proof. reflexivity. Qed.

Example decoder_rejects_8 : json.checkValid fake.decoder [x38] <> None.
Proof. discriminate. Qed.

Example text_is_decoded :
  GetLatestJsonSecretValue
    (fake.sdk None None None (stored (Some "7") None))
    fake.decoder fake.handle context_Background "db-password" 0
  = ((7, None),
     [EvGetSecretValue context_Background
        {| secretsmanager.SecretId := Some "db-password" |}]).
Proof. reflexivity. Qed.

Example binary_is_decoded_when_text_is_nil :
  value (GetLatestJsonSecretValue
           (fake.sdk None None None (stored None (Some [x37])))
           fake.decoder fake.handle context_Background "db-password" 0)
  = (7, None).
Proof. reflexivity. Qed.

Example text_wins_over_binary :
  value (GetLatestJsonSecretValue
           (fake.sdk None None None (stored (Some "8") (Some [x37])))
           fake.decoder fake.handle context_Background "db-password" 0)
  = (0, Some (eris_Wrap (Foreign "invalid character") "failed to unmarshal byte value")).
Proof. reflexivity. Qed.

Example secret_not_found :
  value (GetLatestJsonSecretValue fake.healthy fake.decoder fake.handle
           context_Background "db-password" 0)
  = (0, Some (eris_Wrap (Foreign "ResourceNotFoundException")
                "failed to get secret value")).
Proof. reflexivity. Qed.

(** * The properties of the package *)

Lemma exchanges_any_run sdk ctx args :
  (exchanges (trace (NewEGAwsClient sdk ctx args)) <= 1)%nat.
Proof.
  destruct args as [args |]; [| cbn; lia].
  logger_cases sdk ctx args.
  - run_cases sdk ctx args; cbn [trace snd];
      rewrite ?exchanges_app, ?configLog_no_exchange, ?verified_no_exchange;
      cbn; lia.
  - unlogged_cases sdk ctx args; cbn; lia.
Qed.

(** C1.  Bootstrap never performs more than one role-assumption exchange,
    whatever its arguments.  When its arguments hold a logger and the
    exchange succeeds, the trace of the call holds exactly one exchange,
    whether the verification that follows succeeds, fails or panics, and the
    credential source of a handle it returns is the cache over the provider
    closed over the reply to that exchange.  Every sequence of credential
    requests served by that cache, at whatever contexts and times (before the
    expiration or after), issues no further exchange and ends each request in
    the same way; when the reply carried the four fields, each request
    returns the credential set made of exactly these four values, with a nil
    error. *)
Theorem one_exchange_then_same_credentials
    (sdk : Collaborators) (ctx : Context) (args : NewEGAwsClientArgs)
    (logger : logging_Logger) (optFns : list config.LoadOption)
    (cfg0 : aws.Config) (result : sts.AssumeRoleOutput) :
  Logger args = Some logger ->
  (AssumeRoleArn args =? "")%string = false ->
  loaded_with (trace (NewEGAwsClient sdk ctx (Some args))) = [optFns] ->
  on_LoadDefaultConfig sdk ctx optFns = Ok cfg0 ->
  on_AssumeRole sdk {| sts_options := cfg0 |} ctx
    {| sts.RoleArn := Some (AssumeRoleArn args) |} = Ok result ->
  let cache := aws.NewCredentialsCache (NewEGAwsClient_func1 result) in
  exchanges (trace (NewEGAwsClient sdk ctx (Some args))) = 1%nat
  /\ (forall anyArgs,
        (exchanges (trace (NewEGAwsClient sdk ctx anyArgs)) <= 1)%nat)
  /\ (forall h err,
        value (NewEGAwsClient sdk ctx (Some args)) = Returned (Some h, err) ->
        aws.Credentials_ (GetConfig h) = aws.Cached cache
        /\ sts_options (GetSTSClient h) = GetConfig h
        /\ secretsmanager_options (GetSecretsClient h) = GetConfig h)
  /\ forall requests : list (Context * Time),
       trace (serve cache requests) = []
       /\ exchanges (trace (serve cache requests)) = 0%nat
       /\ List.length (value (serve cache requests)) = List.length requests
       /\ (forall o1 o2,
             In o1 (value (serve cache requests)) ->
             In o2 (value (serve cache requests)) -> o1 = o2)
       /\ (forall accessKeyId secretAccessKey sessionToken expiration,
             sts.Credentials result
             = Some {| types.AccessKeyId := Some accessKeyId;
                       types.SecretAccessKey := Some secretAccessKey;
                       types.SessionToken := Some sessionToken;
                       types.Expiration := Some expiration |} ->
             forall o, In o (value (serve cache requests)) ->
               o = Returned (credential_set accessKeyId secretAccessKey
                               sessionToken expiration, None)).
Proof.
  intros Hlogger Hrole Hopts Hload Hassume cache.
  apply loaded_with_singleton in Hopts. subst optFns.
  split; [| split; [apply exchanges_any_run | split]].
  - rewrite (NewEGAwsClient_with_logger sdk ctx args Hlogger).
    unfold run_with_logger. rewrite Hload, Hrole, Hassume.
    destruct (carries_all_fields result); cbn [trace snd];
      rewrite !exchanges_app, configLog_no_exchange, ?verified_no_exchange;
      reflexivity.
  - intros h err Hh.
    rewrite (NewEGAwsClient_with_logger sdk ctx args Hlogger) in Hh.
    unfold run_with_logger in Hh. rewrite Hload, Hrole, Hassume in Hh.
    destruct (carries_all_fields result); cbn [value fst] in Hh;
      [| discriminate Hh].
    injection Hh as Hh. apply (f_equal fst) in Hh. cbn [fst] in Hh.
    apply verified_handle in Hh. subst h. repeat split; reflexivity.
  - intros requests. subst cache.
    rewrite (serve_settled requests
               (o := value (NewEGAwsClient_func1 result context_Background)))
      by (try apply new_cache_settled; intros; apply func1_no_error).
    cbn [ret trace value fst snd]. do 2 (split; [reflexivity |]).
    split; [apply repeat_length |]. split.
    + intros o1 o2 H1 H2.
      apply repeat_spec in H1. apply repeat_spec in H2. congruence.
    + intros a s t e Hres o Ho. apply repeat_spec in Ho. subst o.
      destruct result as [r]. cbn in Hres. subst r. reflexivity.
Qed.

Lemma one_exchange_then_same_credentials_witness :
  exchanges (trace (NewEGAwsClient
                      (fake.sdk None None (Some (Foreign "ExpiredToken"))
                         fake.no_secret)
                      context_Background (Some (fake.args fake.role 0)))) = 1%nat.
Proof.
  exact (proj1 (one_exchange_then_same_credentials
                  (fake.sdk None None (Some (Foreign "ExpiredToken"))
                     fake.no_secret)
                  context_Background (fake.args fake.role 0)
                  (logger := fake.logger)
                  (optFns := [config.WithRegion "eu-west-1"])
                  (cfg0 := fake.resolve [config.WithRegion "eu-west-1"])
                  (result := {| sts.Credentials := Some fake.credentials |})
                  eq_refl eq_refl eq_refl eq_refl eq_refl)).
Defined.



(** C3.  For every reply of the secret store the payload is chosen as
    follows: a text field that is not nil (the empty string included) gives
    its bytes; failing that, a binary field that is not nil gives its bytes;
    failing both, the call returns the error "secret found but value is
    empty", which differs from the error returned when the retrieval itself
    fails. *)
Theorem payload_selection {T : Type}
    (sdk : Collaborators) (dec : json.Decoder T) (c : EGAwsClient)
    (ctx : Context) (secretNameOrArn : string) (dest : T) :
  let run := GetLatestJsonSecretValue sdk dec c ctx secretNameOrArn dest in
  let reply := on_GetSecretValue sdk (secretsClient c) ctx
                 {| secretsmanager.SecretId := Some secretNameOrArn |} in
  (forall secretString secretBinary,
      reply = stored (Some secretString) secretBinary ->
      value run = decoded dec (bytes_of_string secretString) dest)
  /\ (forall secretBinary,
        reply = stored (Some "") secretBinary ->
        value run = decoded dec [] dest)
  /\ (forall secretBinary,
        reply = stored None (Some secretBinary) ->
        value run = decoded dec secretBinary dest)
  /\ (reply = stored None None ->
      value run = (dest, Some (eris_New "secret found but value is empty")))
  /\ (forall cause,
        reply = Err cause ->
        value run = (dest, Some (eris_Wrap cause "failed to get secret value")))
  /\ (forall cause,
        eris_New "secret found but value is empty"
        <> eris_Wrap cause "failed to get secret value"
        /\ Error (eris_New "secret found but value is empty")
           <> Error (eris_Wrap cause "failed to get secret value")).
Proof.
  cbv zeta. repeat split.
  - intros s b H. rewrite (GetLatestJsonSecretValue_fetched _ _ _ _ _ _ H).
    reflexivity.
  - intros b H. rewrite (GetLatestJsonSecretValue_fetched _ _ _ _ _ _ H).
    reflexivity.
  - intros b H. rewrite (GetLatestJsonSecretValue_fetched _ _ _ _ _ _ H).
    reflexivity.
  - intros H. rewrite (GetLatestJsonSecretValue_fetched _ _ _ _ _ _ H).
    reflexivity.
  - intros cause H.
    unfold GetLatestJsonSecretValue, secretsmanager_GetSecretValue, aws_String,
      emit, ret, bind, value.
    rewrite H. reflexivity.
  - discriminate.
  - cbn. discriminate.
Qed.

Lemma payload_selection_witness :
  value (GetLatestJsonSecretValue
           (fake.sdk None None None (stored (Some "") (Some [x37])))
           fake.decoder fake.handle context_Background "db-password" 0)
  = decoded fake.decoder [] 0.
Proof.
  exact (proj1 (proj2 (payload_selection
                         (fake.sdk None None None (stored (Some "") (Some [x37])))
                         fake.decoder fake.handle context_Background
                         "db-password" 0))
           (Some [x37]) eq_refl).
Defined.

(** C4.  When the bytes chosen from the reply of the store are not a
    well-formed document, the call returns the decode error, wrapped as
    "failed to unmarshal byte value", and the destination is as it was before
    the call. *)
Theorem malformed_payload_leaves_destination {T : Type}
    (sdk : Collaborators) (dec : json.Decoder T) (c : EGAwsClient)
    (ctx : Context) (secretNameOrArn : string) (dest : T)
    (output : secretsmanager.GetSecretValueOutput) (data : bytes) (cause : error) :
  on_GetSecretValue sdk (secretsClient c) ctx
    {| secretsmanager.SecretId := Some secretNameOrArn |} = Ok output ->
  byteValue_of output = Some data ->
  json.checkValid dec data = Some cause ->
  value (GetLatestJsonSecretValue sdk dec c ctx secretNameOrArn dest)
  = (dest, Some (eris_Wrap cause "failed to unmarshal byte value")).
Proof.
  intros Hget Hdata Hbad.
  rewrite (GetLatestJsonSecretValue_fetched _ _ _ _ _ _ Hget), Hdata.
  unfold decoded. rewrite (Unmarshal_rejected _ _ _ Hbad). reflexivity.
Qed.

Lemma malformed_payload_leaves_destination_witness :
  value (GetLatestJsonSecretValue
           (fake.sdk None None None (stored (Some "{") None))
           fake.decoder fake.handle context_Background "db-password" 42)
  = (42, Some (eris_Wrap (Foreign "invalid character")
                 "failed to unmarshal byte value")).
Proof.
  exact (malformed_payload_leaves_destination
           (fake.sdk None None None (stored (Some "{") None))
           fake.decoder fake.handle context_Background "db-password" 42
           (output := {| secretsmanager.SecretString := Some "{";
                         secretsmanager.SecretBinary := None |})
           (data := bytes_of_string "{")
           eq_refl eq_refl eq_refl).
Defined.

(** C5.  With an empty [AssumeRoleArn], bootstrap performs no role-assumption
    exchange, and a handle it returns holds the configuration the resolver
    replied with, credential source included, and the identity-service client
    built from it, which is the only one built; conversely, when the
    arguments hold a logger and resolution and verification succeed, this is
    the handle returned. *)
Theorem no_role_keeps_resolved_configuration
    (sdk : Collaborators) (ctx : Context) (args : NewEGAwsClientArgs) :
  (AssumeRoleArn args =? "")%string = true ->
  let run := NewEGAwsClient sdk ctx (Some args) in
  exchanges (trace run) = 0%nat
  /\ (forall h err,
        value run = Returned (Some h, err) ->
        exists optFns cfg0,
          loaded_with (trace run) = [optFns]
          /\ on_LoadDefaultConfig sdk ctx optFns = Ok cfg0
          /\ GetConfig h = cfg0
          /\ aws.Credentials_ (GetConfig h) = aws.Credentials_ cfg0
          /\ GetSTSClient h = {| sts_options := cfg0 |}
          /\ GetSecretsClient h = {| secretsmanager_options := cfg0 |}
          /\ sts_clients_built (trace run) = 1%nat)
  /\ (forall logger optFns cfg0 id,
        Logger args = Some logger ->
        loaded_with (trace run) = [optFns] ->
        on_LoadDefaultConfig sdk ctx optFns = Ok cfg0 ->
        on_GetCallerIdentity sdk {| sts_options := cfg0 |} ctx = Ok id ->
        value run
        = Returned
            (Some {| cfg := cfg0; stsClient := {| sts_options := cfg0 |};
                     secretsClient := {| secretsmanager_options := cfg0 |} |},
             None)).
Proof.
  intros Hrole run. subst run. split; [| split].
  - logger_cases sdk ctx args.
    + run_cases sdk ctx args; try discriminate; cbn [trace snd];
        rewrite ?exchanges_app, ?configLog_no_exchange, ?verified_no_exchange;
        reflexivity.
    + unlogged_cases sdk ctx args; reflexivity.
  - intros h err Hh. exists (configOpts_of args).
    pose proof (loaded_with_returned sdk ctx args Hh) as Hopts.
    remember (loaded_with (trace (NewEGAwsClient sdk ctx (Some args))))
      as asked eqn:Easked.
    logger_cases sdk ctx args.
    + run_cases sdk ctx args; try discriminate; cbn [value fst] in Hh;
        try discriminate Hh.
      exists cfg0. injection Hh as Hh. pose proof (f_equal fst Hh) as Hv.
      cbn [fst] in Hv. apply verified_handle in Hv. subst h.
      repeat (split; [first [exact Hopts | reflexivity] |]).
      unfold verified in *.
      destruct (on_GetCallerIdentity sdk _ ctx); [| discriminate Hh].
      cbn [trace snd].
      rewrite !sts_clients_built_app, configLog_builds_no_client. reflexivity.
    + unlogged_cases sdk ctx args; discriminate Hh.
  - intros logger optFns cfg0 id Hlogger Hopts Hload Hid.
    apply loaded_with_singleton in Hopts. subst optFns.
    rewrite (NewEGAwsClient_with_logger sdk ctx args Hlogger).
    unfold run_with_logger, verified. rewrite Hload, Hrole, Hid. reflexivity.
Qed.

Lemma no_role_keeps_resolved_configuration_witness :
  exchanges (trace (NewEGAwsClient fake.healthy context_Background
                      (Some (fake.args "" 0))))
  = 0%nat.
Proof.
  exact (proj1 (no_role_keeps_resolved_configuration fake.healthy
                  context_Background (fake.args "" 0) eq_refl)).
Defined.

(** C6.  Bootstrap asks the resolver at most once, and once whenever its
    arguments hold a logger.  The option list it hands over holds, for a
    positive [RetryMaxAttempts], exactly one retry-cap option, with that very
    value, and asks for that cap; for 0 it holds no retry-cap option and the
    cap it asks for is the zero value, which leaves the cap to the provider.
    The two lists differ.  The package itself never changes the cap: a handle
    carries the cap of the configuration the resolver replied with, so that,
    when that configuration has the cap its option list asked for, the cap of
    the handle's configuration is the positive value given. *)
Theorem retry_cap_exact_or_absent
    (sdk : Collaborators) (ctx : Context) (args : NewEGAwsClientArgs)
    (optFns : list config.LoadOption) :
  loaded_with (trace (NewEGAwsClient sdk ctx (Some args))) = [optFns] ->
  (0 < RetryMaxAttempts args ->
   filter config.is_WithRetryMaxAttempts optFns
   = [config.WithRetryMaxAttempts (RetryMaxAttempts args)]
   /\ config.RetryMaxAttempts (config.requested optFns) = RetryMaxAttempts args)
  /\ (RetryMaxAttempts args = 0 ->
      filter config.is_WithRetryMaxAttempts optFns = []
      /\ config.RetryMaxAttempts (config.requested optFns) = 0)
  /\ (forall sdk' ctx' args',
        0 < RetryMaxAttempts args -> RetryMaxAttempts args' = 0 ->
        loaded_with (trace (NewEGAwsClient sdk' ctx' (Some args'))) <> [optFns])
  /\ (forall h err,
        value (NewEGAwsClient sdk ctx (Some args)) = Returned (Some h, err) ->
        exists cfg0,
          on_LoadDefaultConfig sdk ctx optFns = Ok cfg0
          /\ aws.RetryMaxAttempts (GetConfig h) = aws.RetryMaxAttempts cfg0)
  /\ (forall h err cfg0,
        0 < RetryMaxAttempts args ->
        on_LoadDefaultConfig sdk ctx optFns = Ok cfg0 ->
        aws.RetryMaxAttempts cfg0
        = config.RetryMaxAttempts (config.requested optFns) ->
        value (NewEGAwsClient sdk ctx (Some args)) = Returned (Some h, err) ->
        aws.RetryMaxAttempts (GetConfig h) = RetryMaxAttempts args)
  /\ (forall anyArgs,
        (List.length (loaded_with (trace (NewEGAwsClient sdk ctx anyArgs))) <= 1)%nat)
  /\ (forall args' logger,
        Logger args' = Some logger ->
        exists optFns',
          loaded_with (trace (NewEGAwsClient sdk ctx (Some args'))) = [optFns']).
Proof.
  intros Hopts. apply loaded_with_singleton in Hopts. subst optFns.
  destruct (configOpts_cap args) as [Hfilter Hcap].
  assert (Hkept : forall h err,
             value (NewEGAwsClient sdk ctx (Some args)) = Returned (Some h, err) ->
             exists cfg0,
               on_LoadDefaultConfig sdk ctx (configOpts_of args) = Ok cfg0
               /\ aws.RetryMaxAttempts (GetConfig h) = aws.RetryMaxAttempts cfg0).
  { intros h err Hh. destruct (handle_cfg sdk ctx args Hh)
      as [cfg0 [Hload [[[_ Hc] | [_ [result Hc]]] _]]];
      exists cfg0; (split; [exact Hload |]); unfold GetConfig; rewrite Hc;
      reflexivity. }
  split; [| split; [| split; [| split; [exact Hkept | split; [| split]]]]].
  - intros Hpos. apply Z.ltb_lt in Hpos. rewrite Hpos in Hfilter, Hcap.
    split; assumption.
  - intros Hzero. rewrite Hzero in Hfilter, Hcap. split; assumption.
  - intros sdk' ctx' args' Hpos Hzero Heq.
    apply loaded_with_singleton in Heq.
    destruct (configOpts_cap args') as [Hfilter' _].
    rewrite <- Heq, Hfilter, Hzero in Hfilter'.
    apply Z.ltb_lt in Hpos. rewrite Hpos in Hfilter'. discriminate Hfilter'.
  - intros h err cfg0 Hpos Hload Hhonour Hh.
    destruct (Hkept h err Hh) as [cfg0' [Hload' Hsame]].
    assert (cfg0' = cfg0) by congruence. subst cfg0'.
    rewrite Hsame, Hhonour, Hcap.
    apply Z.ltb_lt in Hpos. rewrite Hpos. reflexivity.
  - intros [args' |]; [| cbn; lia].
    destruct (loaded_with_any_run sdk ctx args') as [E | E]; rewrite E; cbn; lia.
  - intros args' logger Hlogger. exists (configOpts_of args').
    apply (loaded_with_run sdk ctx args' Hlogger).
Qed.

Lemma retry_cap_exact_or_absent_witness :
  aws.RetryMaxAttempts
    (assumed_cfg
       (fake.resolve [config.WithRegion "eu-west-1"; config.WithRetryMaxAttempts 5])
       {| sts.Credentials := Some fake.credentials |})
  = 5.
Proof.
  exact (proj1 (proj2 (proj2 (proj2 (proj2
            (retry_cap_exact_or_absent fake.healthy context_Background
               (fake.args fake.role 5)
               (optFns := [config.WithRegion "eu-west-1";
                           config.WithRetryMaxAttempts 5])
               eq_refl)))))
            (let cfg1 :=
               assumed_cfg
                 (fake.resolve [config.WithRegion "eu-west-1";
                                config.WithRetryMaxAttempts 5])
                 {| sts.Credentials := Some fake.credentials |} in
             {| cfg := cfg1; stsClient := {| sts_options := cfg1 |};
                secretsClient := {| secretsmanager_options := cfg1 |} |})
            None
            (fake.resolve [config.WithRegion "eu-west-1";
                           config.WithRetryMaxAttempts 5])
            eq_refl eq_refl eq_refl eq_refl).
Defined.




(** C8.  The provider installed after role assumption reads the four fields
    of the reply through pointers without a check.  For every context it
    returns (the credential set made of the four values, with a nil error)
    exactly when the reply carries all four fields, it panics on a nil
    dereference otherwise, and it never returns an error. *)
Theorem provider_total_iff_reply_complete (result : sts.AssumeRoleOutput) (ctx : Context) :
  ((exists v, value (NewEGAwsClient_func1 result ctx) = Returned v)
     <-> carries_all_fields result = true)
  /\ (carries_all_fields result = false
      <-> value (NewEGAwsClient_func1 result ctx) = Panicked nil_dereference)
  /\ (forall c accessKeyId secretAccessKey sessionToken expiration,
        sts.Credentials result = Some c ->
        types.AccessKeyId c = Some accessKeyId ->
        types.SecretAccessKey c = Some secretAccessKey ->
        types.SessionToken c = Some sessionToken ->
        types.Expiration c = Some expiration ->
        value (NewEGAwsClient_func1 result ctx)
        = Returned (credential_set accessKeyId secretAccessKey sessionToken
                      expiration, None))
  /\ (forall creds err,
        value (NewEGAwsClient_func1 result ctx) <> Returned (creds, Some err)).
Proof.
  assert (Hpanic : carries_all_fields result = false ->
                   value (NewEGAwsClient_func1 result ctx) = Panicked nil_dereference).
  { intros H. rewrite (func1_panics result ctx H). reflexivity. }
  assert (Hreturn : carries_all_fields result = true ->
                    exists creds, value (NewEGAwsClient_func1 result ctx)
                                  = Returned (creds, None)).
  { unfold carries_all_fields.
    destruct result as [[[[a|] [s|] [t|] [e|]]|]]; cbn; intros H;
      try discriminate H.
    eexists. reflexivity. }
  repeat split.
  - intros [v Hv]. destruct (carries_all_fields result); [reflexivity |].
    rewrite Hpanic in Hv by reflexivity. discriminate Hv.
  - intros H. destruct (Hreturn H) as [creds Hc]. eexists. exact Hc.
  - exact Hpanic.
  - intros H. destruct (carries_all_fields result); [| reflexivity].
    destruct Hreturn as [creds Hc]; [reflexivity |]. congruence.
  - intros c a s t e Hc Ha Hs Ht He.
    destruct result as [r]. cbn in Hc. subst r.
    destruct c as [a0 s0 t0 e0]. cbn in Ha, Hs, Ht, He. subst.
    reflexivity.
  - intros creds err H.
    destruct (carries_all_fields result) eqn:E.
    + destruct (Hreturn eq_refl) as [creds' Hc]. congruence.
    + rewrite (Hpanic eq_refl) in H. discriminate H.
Qed.

(** C9.  A secret whose text field is present and empty is decoded from no
    bytes at all, whatever its binary field holds; the empty input not being
    a well-formed document, the call returns the decode error, wrapped as
    "failed to unmarshal byte value", for every destination, and not the
    error "secret found but value is empty". *)
Theorem empty_text_is_a_decode_error {T : Type}
    (sdk : Collaborators) (dec : json.Decoder T) (c : EGAwsClient)
    (ctx : Context) (secretNameOrArn : string) (dest : T)
    (secretBinary : option bytes) (cause : error) :
  on_GetSecretValue sdk (secretsClient c) ctx
    {| secretsmanager.SecretId := Some secretNameOrArn |}
  = stored (Some "") secretBinary ->
  json.checkValid dec [] = Some cause ->
  value (GetLatestJsonSecretValue sdk dec c ctx secretNameOrArn dest)
  = (dest, Some (eris_Wrap cause "failed to unmarshal byte value"))
  /\ snd (value (GetLatestJsonSecretValue sdk dec c ctx secretNameOrArn dest))
     <> Some (eris_New "secret found but value is empty").
Proof.
  intros Hget Hempty.
  assert (H : value (GetLatestJsonSecretValue sdk dec c ctx secretNameOrArn dest)
              = (dest, Some (eris_Wrap cause "failed to unmarshal byte value"))).
  { rewrite (GetLatestJsonSecretValue_fetched _ _ _ _ _ _ Hget).
    cbn [byteValue_of secretsmanager.SecretString].
    change (bytes_of_string "") with (@nil byte).
    unfold decoded. rewrite (Unmarshal_rejected _ _ _ Hempty). reflexivity. }
  split; [exact H |]. rewrite H. cbn. discriminate.
Qed.

Lemma empty_text_is_a_decode_error_witness :
  value (GetLatestJsonSecretValue
           (fake.sdk None None None (stored (Some "") (Some [x37])))
           fake.decoder fake.handle context_Background "db-password" 42)
  = (42, Some (eris_Wrap (Foreign "unexpected end of JSON input")
                 "failed to unmarshal byte value")).
Proof.
  exact (proj1 (empty_text_is_a_decode_error
                  (fake.sdk None None None (stored (Some "") (Some [x37])))
                  fake.decoder fake.handle context_Background "db-password" 42
                  (secretBinary := Some [x37]) eq_refl eq_refl)).
Defined.

(** C10.  For a negative [RetryMaxAttempts], bootstrap does what it does
    for 0: the same calls with the same arguments, the same log lines and the
    same result or panic; an option list it hands to the resolver holds no
    retry-cap option and asks for the zero value, which leaves the cap to the
    provider, and with a logger in the arguments it does hand one over. *)
Theorem negative_retry_cap_as_zero
    (sdk : Collaborators) (ctx : Context) (args : NewEGAwsClientArgs) :
  RetryMaxAttempts args < 0 ->
  NewEGAwsClient sdk ctx (Some args)
  = NewEGAwsClient sdk ctx (Some (with_RetryMaxAttempts args 0))
  /\ (forall optFns,
        In optFns (loaded_with (trace (NewEGAwsClient sdk ctx (Some args)))) ->
        filter config.is_WithRetryMaxAttempts optFns = []
        /\ config.RetryMaxAttempts (config.requested optFns) = 0)
  /\ (forall logger,
        Logger args = Some logger ->
        exists optFns,
          loaded_with (trace (NewEGAwsClient sdk ctx (Some args))) = [optFns]).
Proof.
  intros Hneg.
  assert (Hguard : (0 <? RetryMaxAttempts args) = false)
    by (apply Z.ltb_ge; lia).
  split; [| split].
  - rewrite !NewEGAwsClient_closed_form.
    unfold closed_form, run_with_logger, run_without_logger,
      logs_before_resolving, configOpts_of, configLog_of, with_RetryMaxAttempts.
    cbn [Logger Region AssumeRoleArn RetryMaxAttempts RetryMode HTTPClient].
    rewrite Hguard. reflexivity.
  - intros optFns Hin.
    destruct (loaded_with_any_run sdk ctx args) as [E | E]; rewrite E in Hin;
      [contradiction |].
    destruct Hin as [Hin | []]. subst optFns.
    destruct (configOpts_cap args) as [Hfilter Hcap].
    rewrite Hguard in Hfilter, Hcap. split; assumption.
  - intros logger Hlogger. exists (configOpts_of args).
    apply (loaded_with_run sdk ctx args Hlogger).
Qed.

Lemma negative_retry_cap_as_zero_witness :
  NewEGAwsClient fake.healthy context_Background (Some (fake.args fake.role (-1)))
  = NewEGAwsClient fake.healthy context_Background
      (Some (with_RetryMaxAttempts (fake.args fake.role (-1)) 0)).
Proof.
  refine (proj1 (negative_retry_cap_as_zero fake.healthy context_Background
                   (fake.args fake.role (-1)) _)).
  reflexivity.
Defined.

(** * Further properties: the request log of [httpserver] *)

Lemma NewLogEntry_health l r :
  health_path (httpserver.URL_Path r) ->
  httpserver.NewLogEntry l r = httpserver.noopLogEntry.
Proof.
  unfold httpserver.NewLogEntry. intros [H | H]; rewrite H; reflexivity.
Qed.

Lemma NewLogEntry_other l r :
  ~ health_path (httpserver.URL_Path r) ->
  httpserver.NewLogEntry l r
  = httpserver.defaultLogEntry_
      {| httpserver.entry_Logger := httpserver.formatter_Logger l;
         httpserver.entry_NoColor := httpserver.formatter_NoColor l |}.
Proof.
  unfold httpserver.NewLogEntry, health_path. intros H.
  destruct (String.eqb_spec (httpserver.URL_Path r) "/healthz") as [E | _];
    [exfalso; apply H; left; exact E |].
  destruct (String.eqb_spec (httpserver.URL_Path r) "/") as [E | _];
    [exfalso; apply H; right; exact E |].
  reflexivity.
Qed.

Lemma tell_noop calls : tell httpserver.noopLogEntry calls = Returned [].
Proof.
  induction calls as [| c rest IH]; [reflexivity |].
  cbn [tell]. rewrite IH. destruct c; reflexivity.
Qed.

Lemma tell_default logger noColor calls :
  tell (httpserver.defaultLogEntry_
          {| httpserver.entry_Logger := Some logger;
             httpserver.entry_NoColor := noColor |}) calls
  = Returned (map (record_of logger) (filter (let_through logger) calls)).
Proof.
  induction calls as [| c rest IH]; [reflexivity |].
  cbn [tell filter]. rewrite IH. unfold let_through.
  destruct c;
    cbn [call_level tell_one httpserver.Write httpserver.Panic
         httpserver.defaultLogEntry_Write httpserver.defaultLogEntry_Panic
         httpserver.entry_Logger logrus.WithFields];
    unfold logrus.Info, logrus.Error; cbn [logrus.Logger_];
    destruct (logrus.IsLevelEnabled logger _); reflexivity.
Qed.

Example health_check_is_silent :
  tell (httpserver.NewLogEntry
          {| httpserver.formatter_Logger := None;
             httpserver.formatter_NoColor := true |}
          {| httpserver.URL_Path := "/healthz" |})
       [call_Write 200 2 [] 1500 any_nil; call_Panic (any_string "boom") []]
  = Returned [].
Proof. reflexivity. Qed.

Example trailing_slash_is_logged :
  tell (httpserver.NewLogEntry
          {| httpserver.formatter_Logger := Some logrus.New;
             httpserver.formatter_NoColor := true |}
          {| httpserver.URL_Path := "/healthz/" |})
       [call_Write 404 19 [] 1500 any_nil]
  = Returned [record_of logrus.New (call_Write 404 19 [] 1500 any_nil)].
Proof. reflexivity. Qed.

Example listen_addresses :
  map fmt_Sprintf_colon_d [8080; 0; -1] = [":8080"; ":0"; ":-1"].
Proof. reflexivity. Qed.

(** A logger at level Error lets the panics through and not the
    completions. *)
Example completions_are_dropped_at_level_error :
  tell (httpserver.NewLogEntry
          {| httpserver.formatter_Logger :=
               Some {| logrus.Formatter_ := logrus.TextFormatter;
                       logrus.Level_ := logrus.ErrorLevel |};
             httpserver.formatter_NoColor := true |}
          {| httpserver.URL_Path := "/api/items" |})
       [call_Write 200 512 [] 1500 any_nil; call_Panic (any_string "boom") []]
  = Returned
      [record_of {| logrus.Formatter_ := logrus.TextFormatter;
                    logrus.Level_ := logrus.ErrorLevel |}
         (call_Panic (any_string "boom") [])].
Proof. reflexivity. Qed.

(** X1.  A request for "/healthz" or "/" gets a log entry that logs nothing
    and never panics, whatever calls are made on it, in whatever number, and
    whatever the formatter holds, a nil logger included. *)
Theorem health_checks_are_never_logged
    (l : httpserver.customLogFormatter) (r : httpserver.Request)
    (calls : list EntryCall) :
  health_path (httpserver.URL_Path r) ->
  tell (httpserver.NewLogEntry l r) calls = Returned [].
Proof.
  intros H. rewrite (NewLogEntry_health l r H). apply tell_noop.
Qed.

Lemma health_checks_are_never_logged_witness :
  tell (httpserver.NewLogEntry
          {| httpserver.formatter_Logger := None;
             httpserver.formatter_NoColor := false |}
          {| httpserver.URL_Path := "/" |})
       [call_Panic (any_error (Foreign "boom")) []; call_Write 500 0 [] 7 any_nil]
  = Returned [].
Proof.
  apply health_checks_are_never_logged. right. reflexivity.
Defined.

(** X2.  For a request for any other path, and a formatter that holds a
    logger, the calls made on the log entry that the level of the logger lets
    through are logged one record each, in the order of the calls and all to
    that logger, and the other calls leave nothing: a completion is logged
    at level Info with the status, the byte count and the elapsed time, a
    panic at level Error with the panic value and the stack as a string, so
    that a logger at level Info or more verbose logs one record for every
    call.  The record depends neither on the request nor on the headers or
    the extra argument. *)
Theorem other_requests_are_logged_call_by_call
    (l : httpserver.customLogFormatter) (logger : logrus.Logger)
    (r : httpserver.Request) (calls : list EntryCall) :
  httpserver.formatter_Logger l = Some logger ->
  ~ health_path (httpserver.URL_Path r) ->
  tell (httpserver.NewLogEntry l r) calls
  = Returned (map (record_of logger) (filter (let_through logger) calls))
  /\ (logrus.IsLevelEnabled logger logrus.InfoLevel = true ->
      tell (httpserver.NewLogEntry l r) calls
      = Returned (map (record_of logger) calls))
  /\ (forall r' status bytes header header' elapsed extra extra',
        ~ health_path (httpserver.URL_Path r') ->
        tell (httpserver.NewLogEntry l r')
             [call_Write status bytes header' elapsed extra']
        = tell (httpserver.NewLogEntry l r)
               [call_Write status bytes header elapsed extra]).
Proof.
  intros Hl Hr. split; [| split].
  - rewrite (NewLogEntry_other l r Hr), Hl. apply tell_default.
  - intros Hinfo. rewrite (NewLogEntry_other l r Hr), Hl, tell_default.
    f_equal. f_equal. apply forallb_filter_id. apply forallb_forall.
    intros c _. unfold let_through. destruct c; cbn [call_level];
      [exact Hinfo |].
    unfold logrus.IsLevelEnabled in *. cbn [logrus.severity] in *.
    apply Nat.leb_le. apply Nat.leb_le in Hinfo. lia.
  - intros r' status bytes header header' elapsed extra extra' Hr'.
    rewrite (NewLogEntry_other l r Hr), (NewLogEntry_other l r' Hr'), Hl.
    reflexivity.
Qed.

Lemma other_requests_are_logged_call_by_call_witness :
  tell (httpserver.NewLogEntry
          {| httpserver.formatter_Logger := Some logrus.New;
             httpserver.formatter_NoColor := true |}
          {| httpserver.URL_Path := "/api/items" |})
       [call_Write 200 512 [] 1500 any_nil; call_Panic (any_string "boom") []]
  = Returned [record_of logrus.New (call_Write 200 512 [] 1500 any_nil);
              record_of logrus.New (call_Panic (any_string "boom") [])].
Proof.
  refine (proj1 (proj2 (other_requests_are_logged_call_by_call
                          {| httpserver.formatter_Logger := Some logrus.New;
                             httpserver.formatter_NoColor := true |}
                          {| httpserver.URL_Path := "/api/items" |}
                          [call_Write 200 512 [] 1500 any_nil;
                           call_Panic (any_string "boom") []]
                          eq_refl _)) eq_refl).
  intros [H | H]; discriminate H.
Defined.

(** X3.  With a logger in the formatter, calls on the log entry of a
    request leave the log empty in two cases and no other: the path of the
    request is exactly "/healthz" or "/", or the level of the logger lets
    none of the calls through. *)
Theorem silent_exactly_on_health_paths
    (l : httpserver.customLogFormatter) (logger : logrus.Logger)
    (r : httpserver.Request) (calls : list EntryCall) :
  httpserver.formatter_Logger l = Some logger ->
  (tell (httpserver.NewLogEntry l r) calls = Returned []
   <-> health_path (httpserver.URL_Path r)
       \/ forallb (fun c => negb (let_through logger c)) calls = true).
Proof.
  intros Hl.
  assert (Hnone : forall cs,
             map (record_of logger) (filter (let_through logger) cs) = []
             <-> forallb (fun c => negb (let_through logger c)) cs = true).
  { induction cs as [| c cs IH]; [cbn; tauto |].
    cbn [filter forallb]. destruct (let_through logger c); cbn.
    - split; intros H; discriminate H.
    - exact IH. }
  destruct (String.eqb_spec (httpserver.URL_Path r) "/healthz") as [E | N1].
  { split; [intros _; left; left; exact E |].
    intros _. rewrite NewLogEntry_health by (left; exact E). apply tell_noop. }
  destruct (String.eqb_spec (httpserver.URL_Path r) "/") as [E | N2].
  { split; [intros _; left; right; exact E |].
    intros _. rewrite NewLogEntry_health by (right; exact E). apply tell_noop. }
  assert (Hr : ~ health_path (httpserver.URL_Path r))
    by (intros [H | H]; contradiction).
  rewrite (NewLogEntry_other l r Hr), Hl, tell_default. split.
  - intros H. right. apply Hnone. injection H as H. exact H.
  - intros [H | H]; [contradiction |]. apply Hnone in H. rewrite H. reflexivity.
Qed.

Lemma silent_exactly_on_health_paths_witness :
  tell (httpserver.NewLogEntry
          {| httpserver.formatter_Logger := Some logrus.New;
             httpserver.formatter_NoColor := true |}
          {| httpserver.URL_Path := "/Healthz" |})
       [call_Write 200 2 [] 1500 any_nil] = Returned []
  <-> health_path "/Healthz"
      \/ forallb (fun c => negb (let_through logrus.New c))
           [call_Write 200 2 [] 1500 any_nil] = true.
Proof.
  exact (silent_exactly_on_health_paths
           {| httpserver.formatter_Logger := Some logrus.New;
              httpserver.formatter_NoColor := true |}
           {| httpserver.URL_Path := "/Healthz" |}
           [call_Write 200 2 [] 1500 any_nil] eq_refl).
Defined.

Lemma NewEasyGoHTTPServer_returns args :
  httpserver.NewEasyGoHTTPServer (Some args)
  = Returned
      (let r := {| httpserver.middlewares :=
                     [httpserver.middleware_RequestLogger
                        {| httpserver.formatter_Logger := Some (request_logger args);
                           httpserver.formatter_NoColor := true |}] |} in
       {| httpserver.server :=
            {| httpserver.Addr := fmt_Sprintf_colon_d (httpserver.Port args);
               httpserver.Handler := r;
               httpserver.ErrorLog :=
                 {| httpserver.out := httpserver.io_Discard;
                    httpserver.prefix := ""; httpserver.flag := 0 |} |};
          httpserver.Chi := r |},
       {| httpserver.Logger := Some (request_logger args);
          httpserver.Port := httpserver.Port args |}).
Proof.
  unfold httpserver.NewEasyGoHTTPServer, request_logger.
  destruct args as [[logger |] port]; reflexivity.
Qed.

(** X4.  [NewEasyGoHTTPServer] returns for every argument struct and panics
    only on a nil pointer.  The server it returns handles requests with the
    router it exposes, whose only middleware is a request logger.  That
    logger logs to the logger of the arguments, left as it is, or, when the
    arguments hold none, to a new logger with the JSON formatter, which is
    also written into the arguments.  Whatever the request and the calls on
    its log entry, this request logger never panics, and every record it
    logs goes to that logger. *)
Theorem server_request_log_is_safe
    (args : option httpserver.NewEasyGoHTTPServerArgs) :
  ((exists v, httpserver.NewEasyGoHTTPServer args = Returned v) <-> args <> None)
  /\ forall a s a',
       args = Some a ->
       httpserver.NewEasyGoHTTPServer args = Returned (s, a') ->
       httpserver.Handler (httpserver.GetHttpServer s) = httpserver.Chi s
       /\ httpserver.out (httpserver.ErrorLog (httpserver.GetHttpServer s))
          = httpserver.io_Discard
       /\ httpserver.Port a' = httpserver.Port a
       /\ httpserver.Logger a' = Some (request_logger a)
       /\ (forall logger, httpserver.Logger a = Some logger ->
             request_logger a = logger /\ a' = a)
       /\ (httpserver.Logger a = None ->
           logrus.Formatter_ (request_logger a) = logrus.JSONFormatter)
       /\ exists l,
            httpserver.middlewares (httpserver.Chi s)
            = [httpserver.middleware_RequestLogger l]
            /\ httpserver.formatter_Logger l = Some (request_logger a)
            /\ forall r calls,
                 exists records,
                   tell (httpserver.NewLogEntry l r) calls = Returned records
                   /\ Forall (fun rec =>
                                logrus.Logger_ (logrus.entry rec) = request_logger a)
                             records.
Proof.
  split.
  - split.
    + intros [v Hv] Hnil. subst args. discriminate Hv.
    + intros Hsome. destruct args as [a |]; [| contradiction].
      rewrite NewEasyGoHTTPServer_returns. eexists. reflexivity.
  - intros a s a' Hargs Hnew. subst args.
    rewrite NewEasyGoHTTPServer_returns in Hnew. cbv zeta in Hnew.
    inversion Hnew; subst s a'; clear Hnew. cbn.
    do 4 (split; [reflexivity |]).
    split; [| split].
    + intros logger Hl. unfold request_logger. rewrite Hl.
      split; [reflexivity |]. destruct a as [lg port]. cbn in Hl. subst lg.
      reflexivity.
    + intros Hl. unfold request_logger. rewrite Hl. reflexivity.
    + eexists. split; [reflexivity |]. split; [reflexivity |].
      intros r calls.
      destruct (String.eqb_spec (httpserver.URL_Path r) "/healthz") as [E | N1];
        [| destruct (String.eqb_spec (httpserver.URL_Path r) "/") as [E | N2]].
      * exists []. split; [| constructor].
        rewrite NewLogEntry_health by (left; exact E). apply tell_noop.
      * exists []. split; [| constructor].
        rewrite NewLogEntry_health by (right; exact E). apply tell_noop.
      * exists (map (record_of (request_logger a))
                  (filter (let_through (request_logger a)) calls)). split.
        -- rewrite NewLogEntry_other by (intros [H | H]; contradiction).
           apply tell_default.
        -- apply Forall_forall. intros rec Hin.
           apply in_map_iff in Hin. destruct Hin as [c [Hc _]]. subst rec.
           destruct c; reflexivity.
Qed.

Lemma server_request_log_is_safe_witness :
  httpserver.Logger
    {| httpserver.Logger :=
         Some (logrus.SetFormatter logrus.New logrus.JSONFormatter);
       httpserver.Port := 8080 |}
  = Some (request_logger {| httpserver.Logger := None; httpserver.Port := 8080 |}).
Proof.
  refine (proj1 (proj2 (proj2 (proj2
            (proj2 (server_request_log_is_safe
                      (Some {| httpserver.Logger := None;
                               httpserver.Port := 8080 |}))
               {| httpserver.Logger := None; httpserver.Port := 8080 |}
               _ _ eq_refl eq_refl))))).
Defined.

Lemma Z_to_int_nonnil (n : Z) : Z.to_int n <> Pos Nil /\ Z.to_int n <> Neg Nil.
Proof.
  destruct n as [| p | p]; cbn; split; try discriminate;
    intros H; injection H as H; exact (Unsigned.to_uint_nonnil p H).
Qed.

Lemma port_of_Sprintf (n : Z) : port_of_Addr (fmt_Sprintf_colon_d n) = Some n.
Proof.
  unfold fmt_Sprintf_colon_d, port_of_Addr. cbn [append].
  destruct (Z_to_int_nonnil n) as [Hp Hn].
  rewrite (NilZero.isi (Z.to_int n) Hp Hn). cbn [option_map].
  rewrite DecimalZ.of_to. reflexivity.
Qed.

(** X5.  The listen address of a new server is a colon followed by the port
    in decimal, for every port, zero and negative ones included: the port is
    read back from the address, and servers made for different ports listen
    on different addresses. *)
Theorem listen_address_carries_the_port
    (a b : httpserver.NewEasyGoHTTPServerArgs)
    (s t : httpserver.EasyGoHTTPServer)
    (a' b' : httpserver.NewEasyGoHTTPServerArgs) :
  httpserver.NewEasyGoHTTPServer (Some a) = Returned (s, a') ->
  httpserver.NewEasyGoHTTPServer (Some b) = Returned (t, b') ->
  port_of_Addr (httpserver.Addr (httpserver.GetHttpServer s))
  = Some (httpserver.Port a)
  /\ (httpserver.Addr (httpserver.GetHttpServer s)
      = httpserver.Addr (httpserver.GetHttpServer t)
      <-> httpserver.Port a = httpserver.Port b).
Proof.
  intros Hs Ht. rewrite NewEasyGoHTTPServer_returns in Hs, Ht.
  cbv zeta in Hs, Ht. inversion Hs; subst s a'. inversion Ht; subst t b'.
  cbn [httpserver.Addr httpserver.GetHttpServer httpserver.server].
  split; [apply port_of_Sprintf |]. split.
  - intros H. apply (f_equal port_of_Addr) in H.
    rewrite !port_of_Sprintf in H. congruence.
  - intros H. rewrite H. reflexivity.
Qed.

Lemma listen_address_carries_the_port_witness :
  port_of_Addr ":-1" = Some (-1).
Proof.
  exact (proj1 (listen_address_carries_the_port
                  (a := {| httpserver.Logger := None; httpserver.Port := -1 |})
                  (b := {| httpserver.Logger := Some logrus.New;
                           httpserver.Port := 0 |})
                  eq_refl eq_refl)).
Defined.

(** * Further properties: bootstrap and the handle *)

Example options_of_full_arguments :
  loaded_with
    (trace (NewEGAwsClient fake.healthy context_Background
              (Some {| Logger := Some fake.logger;
                       Region := "eu-west-1"; AssumeRoleArn := "";
                       RetryMaxAttempts := 5; RetryMode := "adaptive";
                       HTTPClient := Some 1%nat |})))
  = [[config.WithRegion "eu-west-1"; config.WithRetryMaxAttempts 5;
      config.WithRetryMode "adaptive"; config.WithHTTPClient 1%nat]].
Proof. reflexivity. Qed.

Lemma configOpts_requested args :
  config.requested (configOpts_of args)
  = {| config.Region := Region args;
       config.RetryMaxAttempts := Z.max 0 (RetryMaxAttempts args);
       config.RetryMode := RetryMode args;
       config.HTTPClient := HTTPClient args |}
  /\ config.requested (List.rev (configOpts_of args))
     = config.requested (configOpts_of args)
  /\ hd_error (configOpts_of args) = Some (config.WithRegion (Region args))
  /\ (List.length (configOpts_of args) <= 4)%nat.
Proof.
  unfold configOpts_of.
  destruct (Z.ltb_spec 0 (RetryMaxAttempts args)) as [Hpos | Hneg];
    [rewrite <- (Z.max_r 0 (RetryMaxAttempts args)) at 1 by lia
    | rewrite (Z.max_l 0 (RetryMaxAttempts args)) by lia];
    destruct (String.eqb_spec (RetryMode args) "") as [Hmode | Hmode];
    try rewrite Hmode;
    destruct (HTTPClient args);
    repeat split; cbn; try reflexivity; try lia;
    rewrite ?Z.max_r by lia; reflexivity.
Qed.

(** X6.  An option list that bootstrap hands to the resolver asks for the
    arguments as they are: the region verbatim, the retry mode and the HTTP
    client as given (an empty mode and a nil client ask for nothing), and a
    retry cap only when it is positive.  The region comes first, there are at
    most four options, and no option overrides another: applied in the
    reverse order they ask for the same.  The resolver is asked at most once,
    and it is asked whenever the arguments hold a logger, or make bootstrap
    log nothing before it resolves. *)
Theorem options_ask_for_the_arguments
    (sdk : Collaborators) (ctx : Context) (args : NewEGAwsClientArgs) :
  (forall optFns,
      In optFns (loaded_with (trace (NewEGAwsClient sdk ctx (Some args)))) ->
      config.requested optFns
      = {| config.Region := Region args;
           config.RetryMaxAttempts := Z.max 0 (RetryMaxAttempts args);
           config.RetryMode := RetryMode args;
           config.HTTPClient := HTTPClient args |}
      /\ config.requested (List.rev optFns) = config.requested optFns
      /\ hd_error optFns = Some (config.WithRegion (Region args))
      /\ (List.length optFns <= 4)%nat)
  /\ (List.length (loaded_with (trace (NewEGAwsClient sdk ctx (Some args)))) <= 1)%nat
  /\ (Logger args <> None \/ logs_before_resolving args = false ->
      exists optFns,
        loaded_with (trace (NewEGAwsClient sdk ctx (Some args))) = [optFns]).
Proof.
  split; [| split].
  - intros optFns Hin.
    destruct (loaded_with_any_run sdk ctx args) as [E | E]; rewrite E in Hin;
      [contradiction |].
    destruct Hin as [Hin | []]. subst optFns. apply configOpts_requested.
  - destruct (loaded_with_any_run sdk ctx args) as [E | E]; rewrite E; cbn; lia.
  - intros H. exists (configOpts_of args).
    destruct (Logger args) as [logger |] eqn:Elogger.
    + apply (loaded_with_run sdk ctx args Elogger).
    + destruct H as [H | H]; [contradiction |].
      rewrite (NewEGAwsClient_without_logger sdk ctx args Elogger).
      unfold run_without_logger. rewrite H.
      destruct (on_LoadDefaultConfig sdk ctx (configOpts_of args)); reflexivity.
Qed.

Lemma logged_app t1 t2 : logged (t1 ++ t2) = logged t1 ++ logged t2.
Proof.
  induction t1 as [| e t1 IH]; [reflexivity |].
  destruct e; cbn; rewrite ?IH, ?app_assoc; reflexivity.
Qed.

Lemma configLog_loggable sdk ctx args key v :
  In (key, v) (logged (configLog_of args)) -> loggable sdk ctx args v.
Proof.
  unfold configLog_of. option_cases args; cbn; intros H;
    repeat (destruct H as [H | H]; [inversion H; subst; cbn; tauto |]);
    contradiction.
Qed.

Lemma verified_loggable sdk ctx args cfg key v :
  In (key, v) (logged (trace (verified sdk ctx cfg))) -> loggable sdk ctx args v.
Proof.
  unfold verified.
  destruct (on_GetCallerIdentity sdk {| sts_options := cfg |} ctx)
    as [id | e] eqn:E; cbn; intros H; [| contradiction].
  destruct H as [H | H]; [| contradiction].
  inversion H; subst. cbn. eexists. exact E.
Qed.

Example log_of_a_healthy_run :
  logged (trace (NewEGAwsClient fake.healthy context_Background
                   (Some (fake.args fake.role 5))))
  = [("maxAttempts", attr_int 5); ("roleArn", attr_string fake.role);
     ("roleArn", attr_string fake.role); ("identity", attr_identity fake.identity)].
Proof. reflexivity. Qed.

(** X7.  A bootstrap call logs nothing but its own arguments and the
    identity it verified: every value in a log line is the retry cap, the
    retry mode or the role of the arguments, or an identity that the identity
    service replied with under the same context.  The secrets accessor logs
    nothing at all. *)
Theorem bootstrap_logs_arguments_and_identity_only {T : Type}
    (sdk : Collaborators) (ctx : Context) (args : NewEGAwsClientArgs)
    (dec : json.Decoder T) (c : EGAwsClient) (secretNameOrArn : string)
    (dest : T) :
  (forall key v,
      In (key, v) (logged (trace (NewEGAwsClient sdk ctx (Some args)))) ->
      loggable sdk ctx args v)
  /\ logged (trace (GetLatestJsonSecretValue sdk dec c ctx secretNameOrArn dest))
     = [].
Proof.
  split.
  - intros key v Hin. logger_cases sdk ctx args.
    + run_cases sdk ctx args; cbn [trace snd] in Hin;
        rewrite ?logged_app in Hin; cbn [logged app] in Hin;
        repeat (apply in_app_or in Hin; destruct Hin as [Hin | Hin]);
        try (eapply configLog_loggable; eassumption);
        try (eapply verified_loggable; eassumption);
        cbn in Hin;
        repeat (destruct Hin as [Hin | Hin]; [inversion Hin; subst; cbn; tauto |]);
        try contradiction.
    + unlogged_cases sdk ctx args; cbn in Hin; contradiction.
  - unfold GetLatestJsonSecretValue, secretsmanager_GetSecretValue, emit, ret,
      bind, trace.
    destruct (on_GetSecretValue sdk (secretsClient c) ctx _)
      as [[[s |] [b |]] | e];
      cbn [secretsmanager.SecretString secretsmanager.SecretBinary];
      try destruct (json.Unmarshal dec _ dest) as [v [err |]]; reflexivity.
Qed.








Example exchange_of_a_healthy_run :
  filter is_AssumeRole
    (trace (NewEGAwsClient fake.healthy (context_Derived 7)
              (Some (fake.args fake.role 0))))
  = [EvAssumeRole (context_Derived 7) {| sts.RoleArn := Some fake.role |}].
Proof. reflexivity. Qed.

Lemma filter_exchange_configLog args : filter is_AssumeRole (configLog_of args) = [].
Proof. unfold configLog_of. option_cases args; reflexivity. Qed.

Lemma filter_exchange_verified sdk ctx cfg :
  filter is_AssumeRole (trace (verified sdk ctx cfg)) = [].
Proof.
  unfold verified. destruct (on_GetCallerIdentity sdk _ ctx); reflexivity.
Qed.

Lemma verified_builds_no_sts_client sdk ctx cfg :
  sts_clients_built (trace (verified sdk ctx cfg)) = 0%nat.
Proof.
  unfold verified. destruct (on_GetCallerIdentity sdk _ ctx); reflexivity.
Qed.

(** X9.  When the arguments hold a logger, a role is to be assumed and the
    exchange succeeds, the exchange is asked of the client of the
    configuration as resolved, with the role of the arguments verbatim and
    nothing else in the request, and what decides the call is the
    verification asked of a second client, built from the configuration whose
    credential source is the cache over the reply.  That verification first
    takes credentials from the cache: when the reply lacks a credential field
    the call panics there, and returns neither handle nor error.  Otherwise,
    on the success of the verification the handle holds that configuration
    and that client, on its failure the call returns the wrapped error and no
    handle.  The assumed configuration keeps the region, the retry cap, the
    retry mode and the HTTP client of the resolved one. *)
Theorem assumed_role_decides_the_handle
    (sdk : Collaborators) (ctx : Context) (args : NewEGAwsClientArgs)
    (logger : logging_Logger) (optFns : list config.LoadOption)
    (cfg0 : aws.Config) (result : sts.AssumeRoleOutput) :
  Logger args = Some logger ->
  (AssumeRoleArn args =? "")%string = false ->
  loaded_with (trace (NewEGAwsClient sdk ctx (Some args))) = [optFns] ->
  on_LoadDefaultConfig sdk ctx optFns = Ok cfg0 ->
  on_AssumeRole sdk {| sts_options := cfg0 |} ctx
    {| sts.RoleArn := Some (AssumeRoleArn args) |} = Ok result ->
  let cfg1 :=
    aws.set_Credentials cfg0
      (aws.Cached (aws.NewCredentialsCache (NewEGAwsClient_func1 result))) in
  value (NewEGAwsClient sdk ctx (Some args))
  = match value (NewEGAwsClient_func1 result ctx) with
    | Panicked reason => Panicked reason
    | Returned _ =>
        match on_GetCallerIdentity sdk {| sts_options := cfg1 |} ctx with
        | Ok _ =>
            Returned
              (Some {| cfg := cfg1; stsClient := {| sts_options := cfg1 |};
                       secretsClient := {| secretsmanager_options := cfg1 |} |},
               None)
        | Err err =>
            Returned
              (None, Some (fmt_Errorf_w "failed to get caller identity" err))
        end
    end
  /\ filter is_AssumeRole (trace (NewEGAwsClient sdk ctx (Some args)))
     = [EvAssumeRole ctx {| sts.RoleArn := Some (AssumeRoleArn args) |}]
  /\ sts_clients_built (trace (NewEGAwsClient sdk ctx (Some args))) = 2%nat
  /\ aws.Region cfg1 = aws.Region cfg0
  /\ aws.RetryMaxAttempts cfg1 = aws.RetryMaxAttempts cfg0
  /\ aws.RetryMode cfg1 = aws.RetryMode cfg0
  /\ aws.HTTPClient cfg1 = aws.HTTPClient cfg0.
Proof.
  intros Hlogger Hrole Hopts Hload Hassume cfg1.
  apply loaded_with_singleton in Hopts. subst optFns.
  rewrite (NewEGAwsClient_with_logger sdk ctx args Hlogger).
  unfold run_with_logger. rewrite Hload, Hrole, Hassume.
  unfold assumed_cfg. fold cfg1.
  split; [| split; [| split; [| repeat split]]].
  - destruct (carries_all_fields result) eqn:Efields; cbn [value fst].
    + assert (Hret : exists v, value (NewEGAwsClient_func1 result ctx) = Returned v).
      { unfold carries_all_fields in Efields. unfold NewEGAwsClient_func1.
        destruct (sts.Credentials result) as [[[a |] [s |] [t |] [e |]] |];
          try discriminate Efields. eexists. reflexivity. }
      destruct Hret as [v Hv]. rewrite Hv. unfold verified.
      destruct (on_GetCallerIdentity sdk {| sts_options := cfg1 |} ctx);
        reflexivity.
    + rewrite (func1_panics result ctx Efields). reflexivity.
  - destruct (carries_all_fields result); cbn [trace snd];
      rewrite !filter_app, filter_exchange_configLog, ?filter_exchange_verified;
      reflexivity.
  - destruct (carries_all_fields result); cbn [trace snd];
      rewrite !sts_clients_built_app, configLog_builds_no_client,
        ?verified_builds_no_sts_client; reflexivity.
Qed.

Lemma assumed_role_decides_the_handle_witness :
  value (NewEGAwsClient fake.tokenless context_Background
           (Some (fake.args fake.role 0)))
  = Panicked nil_dereference.
Proof.
  exact (proj1 (assumed_role_decides_the_handle
                  fake.tokenless context_Background (fake.args fake.role 0)
                  (logger := fake.logger)
                  (optFns := [config.WithRegion "eu-west-1"])
                  (cfg0 := fake.resolve [config.WithRegion "eu-west-1"])
                  (result :=
                     {| sts.Credentials :=
                          Some {| types.AccessKeyId := Some "ASIAEXAMPLE";
                                  types.SecretAccessKey := Some "secret";
                                  types.SessionToken := None;
                                  types.Expiration := Some 3600 |} |})
                  eq_refl eq_refl eq_refl eq_refl eq_refl)).
Defined.

(** X10.  The handle that bootstrap returns is coherent: both of its
    clients are bound to the configuration it exposes.  Its
    [GetCallerIdentity] therefore asks the identity service as the
    credentials of that configuration (those of the assumed role when there
    is one), in one call, and hands the reply back as it is: an error comes
    back unwrapped, unlike the one of the verification at bootstrap.  The
    secrets accessor asks the secret store through the client of the same
    configuration, and an error of the store comes back wrapped. *)
Theorem handle_is_bound_to_its_configuration {T : Type}
    (sdk : Collaborators) (ctx ctx' : Context) (args : NewEGAwsClientArgs)
    (h : EGAwsClient) (bootError : option error) (dec : json.Decoder T)
    (secretNameOrArn : string) (dest : T) :
  value (NewEGAwsClient sdk ctx (Some args)) = Returned (Some h, bootError) ->
  GetSTSClient h = {| sts_options := GetConfig h |}
  /\ GetSecretsClient h = {| secretsmanager_options := GetConfig h |}
  /\ GetCallerIdentity sdk h ctx'
     = (on_GetCallerIdentity sdk {| sts_options := GetConfig h |} ctx',
        [EvGetCallerIdentity ctx'])
  /\ (forall err,
        on_GetCallerIdentity sdk {| sts_options := GetConfig h |} ctx' = Err err ->
        value (GetCallerIdentity sdk h ctx') = Err err)
  /\ (forall cause,
        on_GetSecretValue sdk {| secretsmanager_options := GetConfig h |} ctx'
          {| secretsmanager.SecretId := Some secretNameOrArn |} = Err cause ->
        value (GetLatestJsonSecretValue sdk dec h ctx' secretNameOrArn dest)
        = (dest, Some (eris_Wrap cause "failed to get secret value")))
  /\ (forall output,
        on_GetSecretValue sdk {| secretsmanager_options := GetConfig h |} ctx'
          {| secretsmanager.SecretId := Some secretNameOrArn |} = Ok output ->
        value (GetLatestJsonSecretValue sdk dec h ctx' secretNameOrArn dest)
        = match byteValue_of output with
          | Some data => decoded dec data dest
          | None => (dest, Some (eris_New "secret found but value is empty"))
          end).
Proof.
  intros Hh.
  destruct (handle_cfg sdk ctx args Hh) as [cfg0 [Hload [Hcfg [Hsts Hsec]]]].
  assert (Hcall : GetCallerIdentity sdk h ctx'
                  = (on_GetCallerIdentity sdk
                       {| sts_options := GetConfig h |} ctx',
                     [EvGetCallerIdentity ctx'])).
  { unfold GetCallerIdentity, sts_GetCallerIdentity, GetConfig, emit, ret, bind.
    rewrite Hsts. reflexivity. }
  split; [exact Hsts |]. split; [exact Hsec |]. split; [exact Hcall |].
  split; [| split].
  - intros err Herr. rewrite Hcall. exact Herr.
  - intros cause Hget. unfold GetConfig in Hget. rewrite <- Hsec in Hget.
    unfold GetLatestJsonSecretValue, secretsmanager_GetSecretValue, aws_String,
      emit, ret, bind, value.
    rewrite Hget. reflexivity.
  - intros output Hget. unfold GetConfig in Hget. rewrite <- Hsec in Hget.
    apply GetLatestJsonSecretValue_fetched. exact Hget.
Qed.

Lemma handle_is_bound_to_its_configuration_witness :
  GetSTSClient fake.handle = {| sts_options := GetConfig fake.handle |}.
Proof.
  exact (proj1 (handle_is_bound_to_its_configuration
                  fake.healthy context_Background (context_Derived 1)
                  (fake.args "" 0) (h := fake.handle) (bootError := None)
                  fake.decoder "db-password" 0 eq_refl)).
Defined.

(** X11.  The accessor does not tell a text secret from a binary one: a
    reply whose text field holds a string, whatever its binary field, and a
    reply with no text field whose binary field holds the bytes of that
    string give the same destination and the same error. *)
Theorem text_and_binary_secrets_decode_alike {T : Type}
    (sdk sdk' : Collaborators) (dec : json.Decoder T) (c : EGAwsClient)
    (ctx : Context) (secretNameOrArn : string) (dest : T)
    (secretString : string) (secretBinary : option bytes) :
  on_GetSecretValue sdk (secretsClient c) ctx
    {| secretsmanager.SecretId := Some secretNameOrArn |}
  = stored (Some secretString) secretBinary ->
  on_GetSecretValue sdk' (secretsClient c) ctx
    {| secretsmanager.SecretId := Some secretNameOrArn |}
  = stored None (Some (bytes_of_string secretString)) ->
  value (GetLatestJsonSecretValue sdk dec c ctx secretNameOrArn dest)
  = value (GetLatestJsonSecretValue sdk' dec c ctx secretNameOrArn dest).
Proof.
  intros Htext Hbinary.
  rewrite (GetLatestJsonSecretValue_fetched _ _ _ _ _ _ Htext),
    (GetLatestJsonSecretValue_fetched _ _ _ _ _ _ Hbinary).
  reflexivity.
Qed.

Lemma text_and_binary_secrets_decode_alike_witness :
  value (GetLatestJsonSecretValue
           (fake.sdk None None None (stored (Some "7") (Some [x38])))
           fake.decoder fake.handle context_Background "db-password" 0)
  = value (GetLatestJsonSecretValue
             (fake.sdk None None None (stored None (Some [x37])))
             fake.decoder fake.handle context_Background "db-password" 0).
Proof.
  exact (text_and_binary_secrets_decode_alike
           (fake.sdk None None None (stored (Some "7") (Some [x38])))
           (fake.sdk None None None (stored None (Some [x37])))
           fake.decoder fake.handle context_Background "db-password" 0
           (secretString := "7") (secretBinary := Some [x38])
           eq_refl eq_refl).
Defined.
